(** * PyPolyChord: the callback marshalling layer of [_PyPolyChord.cpp]

    A shallow embedding of the Python 2 extension module [_PyPolyChord.cpp]:
    the two [convert_list] overloads, the [loglikelihood] and [prior]
    callbacks handed to the nested-sampling engine, and the entry point
    [run_PyPolyChord].

    The C++ code works on three kinds of state, all kept in one [World]:
    - native [double] buffers owned by the engine ([heap], addressed by the
      [double*] the callbacks receive);
    - the two file-scope statics [python_loglikelihood] and [python_prior];
    - the CPython error indicator, which a failing API call sets and which
      this file never tests.
    A [trace] of the calls that leave the translation unit (user callables,
    the engine) is kept as ghost state so that "is called once" and "is never
    called" can be stated.

    Undefined behaviour of the C++ code (a NULL dereference, an access outside
    a buffer, [int] overflow) is the outcome [Crashed]. *)

From Stdlib Require Import ZArith Lia PrimFloat FloatOps SpecFloat.
From stdpp Require Import base option list gmap strings.

Local Open Scope Z_scope.

(** ** Python objects *)

(** A value of C type [PyObject*].  [NULL] is the null pointer; a [PyList]
    may hold [NULL] items (as [PyList_New] leaves them).  [PyInt] stands for
    both [int] and [long]; a callable is a function object named by the
    index of its code in the interpreter's table. *)
#[warnings="-register-all"]
Inductive PyObject : Type :=
  | NULL
  | Py_None
  | PyInt (ob_ival : Z)
  | PyFloat (ob_fval : float)
  | PyString (ob_sval : string)
  | PyList (ob_item : list PyObject)
  | PyTuple (ob_item : list PyObject)
  | PyFunction (func_code : nat).

(** What running a user callable gives: the object it returns ([NULL] when
    it raises) and its argument objects as the callee leaves them (a Python
    list argument can be updated in place). *)
Record CallResult : Type := { returned : PyObject; args_after : list PyObject }.

(** ** The run configuration

    The locals of [run_PyPolyChord] after the two callables, in the order in
    which lines 119-142 pass them to [polychord_c_interface]. *)
Record Config : Type := {
  nlive : Z; num_repeats : Z; do_clustering : Z; feedback : Z;
  precision_criterion : float; max_ndead : Z; boost_posterior : float;
  posteriors : Z; equals : Z; cluster_posteriors : Z; write_resume : Z;
  write_paramnames : Z; read_resume : Z; write_stats : Z; write_live : Z;
  write_dead : Z; update_files : Z; nDims : Z; nDerived : Z;
  base_dir : string; file_root : string
}.

(** ** The world *)

Abbreviation addr := positive.

Inductive Event : Type :=
  | PyCall (callable : PyObject) (args : list PyObject)
  | EngineCall (cfg : Config).

Record World : Type := {
  heap : gmap addr (list float);
  python_loglikelihood : PyObject;
  python_prior : PyObject;
  PyErr_pending : bool;
  trace : list Event
}.

Definition with_heap (h : gmap addr (list float)) (w : World) : World :=
  {| heap := h; python_loglikelihood := python_loglikelihood w;
     python_prior := python_prior w; PyErr_pending := PyErr_pending w;
     trace := trace w |}.

Definition with_python_loglikelihood (o : PyObject) (w : World) : World :=
  {| heap := heap w; python_loglikelihood := o;
     python_prior := python_prior w; PyErr_pending := PyErr_pending w;
     trace := trace w |}.

Definition with_python_prior (o : PyObject) (w : World) : World :=
  {| heap := heap w; python_loglikelihood := python_loglikelihood w;
     python_prior := o; PyErr_pending := PyErr_pending w;
     trace := trace w |}.

Definition with_PyErr (b : bool) (w : World) : World :=
  {| heap := heap w; python_loglikelihood := python_loglikelihood w;
     python_prior := python_prior w; PyErr_pending := b;
     trace := trace w |}.

Definition with_event (e : Event) (w : World) : World :=
  {| heap := heap w; python_loglikelihood := python_loglikelihood w;
     python_prior := python_prior w; PyErr_pending := PyErr_pending w;
     trace := trace w ++ [e] |}.

(** ** The monad of the C++ code: state, plus undefined behaviour *)

Inductive Fault : Type :=
  | NullDereference
  | OutOfBounds
  | BadCast
  | SignedOverflow.

Inductive Outcome (A : Type) : Type :=
  | Returned (a : A) (w : World)
  | Crashed (f : Fault).
Arguments Returned {A} a w.
Arguments Crashed {A} f.

Definition M (A : Type) : Type := World -> Outcome A.

Definition ret {A} (a : A) : M A := fun w => Returned a w.

Definition bind {A B} (m : M A) (k : A -> M B) : M B := fun w =>
  match m w with
  | Returned a w' => k a w'
  | Crashed f => Crashed f
  end.

Definition crash {A} (f : Fault) : M A := fun _ => Crashed f.

(** Read a component of the world; update the world. *)
Definition gets {A} (f : World -> A) : M A := fun w => Returned (f w) w.
Definition modify (f : World -> World) : M unit := fun w => Returned tt (f w).

Declare Scope cxx_scope.
Delimit Scope cxx_scope with cxx.
Notation "x <- m ;; k" := (bind m (fun x => k))
  (at level 100, m at next level, right associativity) : cxx_scope.
Notation "m ;; k" := (bind m (fun _ => k))
  (at level 100, right associativity) : cxx_scope.
Local Open Scope cxx_scope.

(** *** Native memory *)

(** [array[i]] read. *)
Definition load (array : addr) (i : Z) : M float := fun w =>
  match heap w !! array with
  | Some buf =>
      if i <? 0 then Crashed OutOfBounds
      else match buf !! Z.to_nat i with
           | Some v => Returned v w
           | None => Crashed OutOfBounds
           end
  | None => Crashed OutOfBounds
  end.

(** [array[i] = v]. *)
Definition store (array : addr) (i : Z) (v : float) : M unit := fun w =>
  match heap w !! array with
  | Some buf =>
      if i <? 0 then Crashed OutOfBounds
      else match buf !! Z.to_nat i with
           | Some _ =>
               Returned tt (with_heap (<[array := <[Z.to_nat i := v]> buf]> (heap w)) w)
           | None => Crashed OutOfBounds
           end
  | None => Crashed OutOfBounds
  end.

(** *** C [int] *)

Definition INT_MAX : Z := 2147483647.
Definition INT_MIN : Z := -2147483648.
Definition LONG_MAX : Z := 9223372036854775807.
Definition LONG_MIN : Z := -9223372036854775808.

(** [i++] on an [int]. *)
Definition int_incr (i : Z) : M Z :=
  if i <? INT_MAX then ret (i + 1) else crash SignedOverflow.

(** [for (int i = i0; i < i0 + n; i++) body], the loop state [s] threaded
    through the iterations. *)
Fixpoint for_int {S : Type} (n : nat) (i : Z) (body : Z -> S -> M S) (s : S) : M S :=
  match n with
  | O => ret s
  | Datatypes.S k =>
      s' <- body i s ;;
      i' <- int_incr i ;;
      for_int k i' body s'
  end.

(** ** The CPython 2 API used by the module

    These are the documented behaviours of the interpreter's C API; memory
    exhaustion in the allocating calls is not modelled. *)

Definition PyErr_Set : M unit := modify (with_PyErr true).

Definition PyErr_Occurred : M bool := gets PyErr_pending.

(** [PyList_New(n)]: a list of [n] NULL items; [NULL] with the error
    indicator set when [n] is negative. *)
Definition PyList_New (n : Z) : M PyObject :=
  if n <? 0 then PyErr_Set ;; ret NULL
  else ret (PyList (replicate (Z.to_nat n) NULL)).

(** [PyList_Size(op)]: [PyList_Check] reads [op->ob_type] first, so a NULL
    argument is dereferenced; an object that is not a list gives -1 with the
    error indicator set. *)
Definition PyList_Size (op : PyObject) : M Z :=
  match op with
  | NULL => crash NullDereference
  | PyList items => ret (Z.of_nat (length items))
  | _ => PyErr_Set ;; ret (-1)
  end.

(** The macro [PyList_SET_ITEM(op, i, v)]: an unchecked store into
    [ob_item].  The list object is updated in place; the model returns it. *)
Definition PyList_SET_ITEM (op : PyObject) (i : Z) (v : PyObject) : M PyObject :=
  match op with
  | NULL => crash NullDereference
  | PyList items =>
      if i <? 0 then crash OutOfBounds
      else match items !! Z.to_nat i with
           | Some _ => ret (PyList (<[Z.to_nat i := v]> items))
           | None => crash OutOfBounds
           end
  | _ => crash BadCast
  end.

(** The macro [PyList_GET_ITEM(op, i)]: an unchecked read of [ob_item]. *)
Definition PyList_GET_ITEM (op : PyObject) (i : Z) : M PyObject :=
  match op with
  | NULL => crash NullDereference
  | PyList items =>
      if i <? 0 then crash OutOfBounds
      else match items !! Z.to_nat i with
           | Some v => ret v
           | None => crash OutOfBounds
           end
  | _ => crash BadCast
  end.

Definition PyFloat_FromDouble (d : float) : M PyObject := ret (PyFloat d).

(** A Python integer as a [double], rounded to nearest even; [None] when the
    result does not fit ([OverflowError]). *)
Definition long_to_double (z : Z) : option float :=
  match binary_normalize prec emax z 0 false with
  | S754_infinity _ => None
  | sf => Some (SF2Prim sf)
  end.

(** The [nb_float] slot: floats and integers convert, the other objects of
    the model have no such slot. *)
Definition nb_float (op : PyObject) : option float :=
  match op with
  | PyFloat d => Some d
  | PyInt z => long_to_double z
  | _ => None
  end.

(** What [PyFloat_AsDouble] hands back to C. *)
Definition as_double (op : PyObject) : float := default (-1)%float (nb_float op).

(** Whether [PyFloat_AsDouble] succeeds on [op]. *)
Definition has_float (op : PyObject) : bool :=
  match nb_float op with
  | Some _ => true
  | None => false
  end.

(** [PyFloat_AsDouble(op)]: on failure (also for NULL) the error indicator
    is set and -1.0 is returned. *)
Definition PyFloat_AsDouble (op : PyObject) : M float :=
  match nb_float op with
  | Some d => ret d
  | None => PyErr_Set ;; ret (-1)%float
  end.

(** The macros [Py_DECREF] and [Py_INCREF] touch [op->ob_refcnt] without a
    NULL test.  Reference counts themselves are not modelled. *)
Definition Py_DECREF (op : PyObject) : M unit :=
  match op with
  | NULL => crash NullDereference
  | _ => ret tt
  end.

Definition Py_INCREF (op : PyObject) : M unit :=
  match op with
  | NULL => crash NullDereference
  | _ => ret tt
  end.

Definition log_event (e : Event) : M unit := modify (with_event e).

(** The variadic arguments of [PyObject_CallFunctionObjArgs] end at the
    first NULL. *)
Fixpoint objargs (args : list PyObject) : list PyObject :=
  match args with
  | [] => []
  | NULL :: _ => []
  | a :: rest => a :: objargs rest
  end.

(** *** Format units of [PyArg_ParseTuple] *)

Definition fits_long (z : Z) : bool := (LONG_MIN <=? z) && (z <=? LONG_MAX).
Definition fits_int (z : Z) : bool := (INT_MIN <=? z) && (z <=? INT_MAX).

(** Unit [i]: a float is refused; [PyInt_AsLong] converts, its result -1
    counting as a failure when the error indicator is up; then the range
    test against [INT_MIN] and [INT_MAX]. *)
Definition convert_i (arg : PyObject) : M (option Z) :=
  match arg with
  | PyInt z =>
      if fits_long z then
        e <- PyErr_Occurred ;;
        if (z =? -1) && e then ret None
        else if fits_int z then ret (Some z)
        else PyErr_Set ;; ret None
      else PyErr_Set ;; ret None
  | _ => PyErr_Set ;; ret None
  end.

(** Unit [d]: [PyFloat_AsDouble], then a test of the error indicator. *)
Definition convert_d (arg : PyObject) : M (option float) :=
  d <- PyFloat_AsDouble arg ;;
  e <- PyErr_Occurred ;;
  if e then ret None else ret (Some d).

Fixpoint has_nul (s : string) : bool :=
  match s with
  | EmptyString => false
  | String c rest => bool_decide (c = Ascii.zero) || has_nul rest
  end.

(** Unit [s]: a byte string without an embedded NUL. *)
Definition convert_s (arg : PyObject) : M (option string) :=
  match arg with
  | PyString s => if has_nul s then PyErr_Set ;; ret None else ret (Some s)
  | _ => PyErr_Set ;; ret None
  end.

(** Stop at the first format unit that fails. *)
Definition bind_opt {A B} (m : M (option A)) (k : A -> M (option B)) : M (option B) :=
  r <- m ;;
  match r with
  | Some a => k a
  | None => ret None
  end.

Notation "x <-? m ;; k" := (bind_opt m (fun x => k))
  (at level 100, m at next level, right associativity) : cxx_scope.

(** ** The module *)

Section PyPolyChord.

(** The Python interpreter running the code of a function object on its
    arguments. *)
Variable interp : nat -> list PyObject -> CallResult.

(** [PyObject_CallFunctionObjArgs(callable, args..., NULL)]: NULL with the
    error indicator set when [callable] is NULL, is not callable, or
    raises. *)
Definition PyObject_CallFunctionObjArgs (callable : PyObject) (args : list PyObject)
  : M PyObject :=
  match callable with
  | PyFunction code =>
      log_event (PyCall callable (objargs args)) ;;
      match returned (interp code (objargs args)) with
      | NULL => PyErr_Set ;; ret NULL
      | result => ret result
      end
  | _ => PyErr_Set ;; ret NULL
  end.

(** Lines 31-34, [void convert_list(double* array, PyObject* list)]:
    convert from C array to Python list.  [PyList_Size(list)] does not
    change during the loop, so the bound is read once. *)
Definition convert_list_array_to_list (array : addr) (list : PyObject) : M PyObject :=
  size <- PyList_Size list ;;
  for_int (Z.to_nat size) 0
    (fun i list =>
       d <- load array i ;;
       item <- PyFloat_FromDouble d ;;
       PyList_SET_ITEM list i item)
    list.

(** Lines 37-40, [void convert_list(PyObject* list, double* array)]:
    convert from Python list to C array. *)
Definition convert_list_list_to_array (list : PyObject) (array : addr) : M unit :=
  size <- PyList_Size list ;;
  for_int (Z.to_nat size) 0
    (fun i _ =>
       item <- PyList_GET_ITEM list i ;;
       d <- PyFloat_AsDouble item ;;
       store array i d)
    tt.

(** Lines 45-67, the likelihood callback given to the engine. *)
Definition loglikelihood (theta : addr) (nDims : Z) (phi : addr) (nDerived : Z)
  : M float :=
  (* Create a python version of theta *)
  list_theta <- PyList_New nDims ;;
  list_theta <- convert_list_array_to_list theta list_theta ;;
  (* Create a python version of phi *)
  list_phi <- PyList_New nDerived ;;
  list_phi <- convert_list_array_to_list phi list_phi ;;
  (* Compute the likelihood and phi from theta *)
  callable <- gets python_loglikelihood ;;
  pylogL <- PyObject_CallFunctionObjArgs callable [list_theta; list_phi] ;;
  (* Convert the python answer back to a C double *)
  logL <- PyFloat_AsDouble pylogL ;;
  (* Garbage collect *)
  Py_DECREF list_theta ;;
  Py_DECREF list_phi ;;
  Py_DECREF pylogL ;;
  ret logL.

(** Lines 71-86, the prior callback given to the engine. *)
Definition prior (cube theta : addr) (nDims : Z) : M unit :=
  (* create a python version of cube *)
  list_cube <- PyList_New nDims ;;
  list_cube <- convert_list_array_to_list cube list_cube ;;
  (* Compute theta from the prior *)
  callable <- gets python_prior ;;
  list_theta <- PyObject_CallFunctionObjArgs callable [list_cube] ;;
  (* Convert the python answer back to a C array *)
  convert_list_list_to_array list_theta theta ;;
  (* Garbage collect *)
  Py_DECREF list_cube ;;
  Py_DECREF list_theta.

(** [PyArg_ParseTuple(args, "OOiiiiiididiiiiiiiiiiss", ...)] of line 115.
    The argument count is checked first; then the items are converted left
    to right, each stored through its pointer as soon as it is converted,
    so the two [O] units have written [python_loglikelihood] and
    [python_prior] before a later unit can fail. *)
Definition PyArg_ParseTuple (args : PyObject) : M (option Config) :=
  match args with
  | NULL => crash NullDereference
  | PyTuple [a0; a1; a2; a3; a4; a5; a6; a7; a8; a9; a10; a11; a12; a13;
             a14; a15; a16; a17; a18; a19; a20; a21; a22] =>
      modify (with_python_loglikelihood a0) ;;
      modify (with_python_prior a1) ;;
      nDims <-? convert_i a2 ;;
      nDerived <-? convert_i a3 ;;
      nlive <-? convert_i a4 ;;
      num_repeats <-? convert_i a5 ;;
      do_clustering <-? convert_i a6 ;;
      feedback <-? convert_i a7 ;;
      precision_criterion <-? convert_d a8 ;;
      max_ndead <-? convert_i a9 ;;
      boost_posterior <-? convert_d a10 ;;
      posteriors <-? convert_i a11 ;;
      equals <-? convert_i a12 ;;
      cluster_posteriors <-? convert_i a13 ;;
      write_resume <-? convert_i a14 ;;
      write_paramnames <-? convert_i a15 ;;
      read_resume <-? convert_i a16 ;;
      write_stats <-? convert_i a17 ;;
      write_live <-? convert_i a18 ;;
      write_dead <-? convert_i a19 ;;
      update_files <-? convert_i a20 ;;
      base_dir <-? convert_s a21 ;;
      file_root <-? convert_s a22 ;;
      ret (Some {| nlive := nlive; num_repeats := num_repeats;
                   do_clustering := do_clustering; feedback := feedback;
                   precision_criterion := precision_criterion;
                   max_ndead := max_ndead; boost_posterior := boost_posterior;
                   posteriors := posteriors; equals := equals;
                   cluster_posteriors := cluster_posteriors;
                   write_resume := write_resume;
                   write_paramnames := write_paramnames;
                   read_resume := read_resume; write_stats := write_stats;
                   write_live := write_live; write_dead := write_dead;
                   update_files := update_files; nDims := nDims;
                   nDerived := nDerived; base_dir := base_dir;
                   file_root := file_root |})
  | _ => PyErr_Set ;; ret None
  end.

(** The engine, [polychord_c_interface] of [interfaces.h]: it receives the
    two callbacks and the configuration, and runs to completion. *)
Variable polychord_c_interface :
  (addr -> Z -> addr -> Z -> M float) -> (addr -> addr -> Z -> M unit) ->
  Config -> M unit.

(** Lines 89-148, the function behind [_PyPolyChord.run]. *)
Definition run_PyPolyChord (self args : PyObject) : M PyObject :=
  (* Parse the input tuple *)
  parsed <- PyArg_ParseTuple args ;;
  match parsed with
  | None => ret NULL
  | Some cfg =>
      (* Run PolyChord *)
      log_event (EngineCall cfg) ;;
      polychord_c_interface loglikelihood prior cfg ;;
      (* Return None *)
      Py_INCREF Py_None ;;
      ret Py_None
  end.

End PyPolyChord.

(** The specification calls the pair of statements that opens both
    callbacks (lines 48-49, 52-53 and 74-75) [toContainer]: a new list of
    [length] items, filled from the buffer. *)
Definition toContainer (buffer : addr) (length : Z) : M PyObject :=
  list <- PyList_New length ;;
  convert_list_array_to_list buffer list.

(** ** The Python side of a call to [_PyPolyChord.run] *)

(** The argument tuple of [run(likelihood, prior, nDims, nDerived, ...)]
    for a configuration, in the order of the format string. *)
Definition run_args (likelihood prior_fn : PyObject) (cfg : Config) : PyObject :=
  PyTuple
    [likelihood; prior_fn; PyInt (nDims cfg); PyInt (nDerived cfg);
     PyInt (nlive cfg); PyInt (num_repeats cfg); PyInt (do_clustering cfg);
     PyInt (feedback cfg); PyFloat (precision_criterion cfg);
     PyInt (max_ndead cfg); PyFloat (boost_posterior cfg);
     PyInt (posteriors cfg); PyInt (equals cfg); PyInt (cluster_posteriors cfg);
     PyInt (write_resume cfg); PyInt (write_paramnames cfg);
     PyInt (read_resume cfg); PyInt (write_stats cfg); PyInt (write_live cfg);
     PyInt (write_dead cfg); PyInt (update_files cfg);
     PyString (base_dir cfg); PyString (file_root cfg)].

Definition int_fields (cfg : Config) : list Z :=
  [nDims cfg; nDerived cfg; nlive cfg; num_repeats cfg; do_clustering cfg;
   feedback cfg; max_ndead cfg; posteriors cfg; equals cfg;
   cluster_posteriors cfg; write_resume cfg; write_paramnames cfg;
   read_resume cfg; write_stats cfg; write_live cfg; write_dead cfg;
   update_files cfg].

(** The values of a configuration can cross the boundary: the integers fit
    a C [int] and the two strings hold no NUL.  Nothing here looks at a sign
    or at the length of a string. *)
Definition representable (cfg : Config) : bool :=
  forallb fits_int (int_fields cfg)
  && negb (has_nul (base_dir cfg)) && negb (has_nul (file_root cfg)).

(** ** Concrete scenarios *)

Definition scale10 (item : PyObject) : PyObject :=
  match item with
  | PyFloat d => PyFloat (d * 10)%float
  | other => other
  end.

(** A table of user callables:
    - 0, a likelihood in the module's own convention: it stores the derived
      parameter 7.0 into its second argument and returns 2.0;
    - 1, the prior [theta_i = 10 * cube_i];
    - 2, a likelihood in the specification's convention: it returns the
      pair (2.0, [7.0]), having also stored 7.0 into its second argument;
    - 3, a prior that drops the first item of its result;
    - 4, a prior that appends an item to its result;
    - 5, the prior of 1 returning a tuple instead of a list;
    - any other code raises. *)
Definition demo_interp (code : nat) (args : list PyObject) : CallResult :=
  match code, args with
  | 0%nat, [list_theta; list_phi] =>
      {| returned := PyFloat 2; args_after := [list_theta; PyList [PyFloat 7]] |}
  | 1%nat, [PyList cube] =>
      {| returned := PyList (scale10 <$> cube); args_after := args |}
  | 2%nat, [list_theta; list_phi] =>
      {| returned := PyTuple [PyFloat 2; PyList [PyFloat 7]];
         args_after := [list_theta; PyList [PyFloat 7]] |}
  | 3%nat, [PyList cube] =>
      {| returned := PyList (scale10 <$> drop 1 cube); args_after := args |}
  | 4%nat, [PyList cube] =>
      {| returned := PyList ((scale10 <$> cube) ++ [PyFloat 99]); args_after := args |}
  | 5%nat, [PyList cube] =>
      {| returned := PyTuple (scale10 <$> cube); args_after := args |}
  | _, _ => {| returned := NULL; args_after := args |}
  end.

(** Engine buffers for one point in two dimensions: [cube] at 1, [theta] at
    2, [phi] (one derived parameter) at 3, and a second [phi] (two derived
    parameters) at 4. *)
Definition demo_heap : gmap addr (list float) :=
  <[1%positive := [0.5; 0.5]%float]>
    (<[2%positive := [0; 0]%float]>
       (<[3%positive := [0]%float]>
          (<[4%positive := [0; 0]%float]> ∅))).

(** A world in the middle of a run: callables 0 and 1 are registered. *)
Definition demo_world : World :=
  {| heap := demo_heap; python_loglikelihood := PyFunction 0;
     python_prior := PyFunction 1; PyErr_pending := false; trace := [] |}.

(** The world of a fresh process: nothing registered, no buffers. *)
Definition fresh_world : World :=
  {| heap := ∅; python_loglikelihood := NULL; python_prior := NULL;
     PyErr_pending := false; trace := [] |}.

Definition demo_config : Config :=
  {| nlive := 25; num_repeats := 10; do_clustering := 1; feedback := 1;
     precision_criterion := 0.5; max_ndead := -1; boost_posterior := 0;
     posteriors := 1; equals := 1; cluster_posteriors := 1; write_resume := 0;
     write_paramnames := 0; read_resume := 0; write_stats := 1;
     write_live := 1; write_dead := 1; update_files := 25; nDims := 2;
     nDerived := 1; base_dir := "chains"; file_root := "demo" |}.

(** The same configuration with negative sizes and empty paths. *)
Definition odd_config : Config :=
  {| nlive := 25; num_repeats := 10; do_clustering := 1; feedback := 1;
     precision_criterion := 0.5; max_ndead := -1; boost_posterior := 0;
     posteriors := 1; equals := 1; cluster_posteriors := 1; write_resume := 0;
     write_paramnames := 0; read_resume := 0; write_stats := 1;
     write_live := 1; write_dead := 1; update_files := 25; nDims := -1;
     nDerived := -2; base_dir := ""; file_root := "" |}.

(** A call with a float where [nDims] is expected: the third format unit
    fails. *)
Definition float_dims_args : PyObject :=
  PyTuple
    [PyFunction 0; PyFunction 1; PyFloat 2; PyInt 1; PyInt 25; PyInt 10;
     PyInt 1; PyInt 1; PyFloat 0.5; PyInt (-1); PyFloat 0; PyInt 1; PyInt 1;
     PyInt 1; PyInt 0; PyInt 0; PyInt 0; PyInt 1; PyInt 1; PyInt 1; PyInt 25;
     PyString "chains"; PyString "demo"].

(** The demo configuration with a live-point count one past [INT_MAX]. *)
Definition wide_config : Config :=
  {| nlive := 2147483648; num_repeats := 10; do_clustering := 1; feedback := 1;
     precision_criterion := 0.5; max_ndead := -1; boost_posterior := 0;
     posteriors := 1; equals := 1; cluster_posteriors := 1; write_resume := 0;
     write_paramnames := 0; read_resume := 0; write_stats := 1;
     write_live := 1; write_dead := 1; update_files := 25; nDims := 2;
     nDerived := 1; base_dir := "chains"; file_root := "demo" |}.

(** A call of [run] with the two callables and nothing else. *)
Definition short_args : PyObject := PyTuple [PyFunction 2; PyFunction 4].

(** The items of an argument tuple. *)
Definition tuple_items (args : PyObject) : list PyObject :=
  match args with
  | PyTuple items => items
  | _ => []
  end.

(** An engine that returns at once. *)
Definition engine_idle
    (loglikelihood : addr -> Z -> addr -> Z -> M float)
    (prior : addr -> addr -> Z -> M unit) (cfg : Config) : M unit :=
  ret tt.

(** An engine that samples one point: it sets up its three buffers, maps
    the cube through the prior and evaluates the likelihood. *)
Definition engine_one_point
    (loglikelihood : addr -> Z -> addr -> Z -> M float)
    (prior : addr -> addr -> Z -> M unit) (cfg : Config) : M unit :=
  modify
    (fun w =>
       with_heap
         (<[1%positive := replicate (Z.to_nat (nDims cfg)) 0.5%float]>
            (<[2%positive := replicate (Z.to_nat (nDims cfg)) 0%float]>
               (<[3%positive := replicate (Z.to_nat (nDerived cfg)) 0%float]>
                  (heap w)))) w) ;;
  prior 1%positive 2%positive (nDims cfg) ;;
  logL <- loglikelihood 2%positive (nDims cfg) 3%positive (nDerived cfg) ;;
  ret tt.

(** ** Predicates on computations *)

(** A computation that returns in every world and changes at most the error
    indicator. *)
Definition touches_only_PyErr {A : Type} (m : M A) : Prop :=
  forall w, exists a b, m w = Returned a (with_PyErr b w).

(** A computation that, when it returns, has left both statics as they
    were. *)
Definition keeps_statics {A : Type} (m : M A) : Prop :=
  forall w a w',
    m w = Returned a w' ->
    python_loglikelihood w' = python_loglikelihood w
    /\ python_prior w' = python_prior w.

(** A computation that, when it returns, has taken the world to one that
    [R] relates to the world it started in. *)
Definition respects (R : World -> World -> Prop) {A : Type} (m : M A) : Prop :=
  forall w a w', m w = Returned a w' -> R w w'.

(** No buffer and no static has changed (the error indicator and the trace
    may have). *)
Definition same_memory (w w' : World) : Prop :=
  heap w' = heap w
  /\ python_loglikelihood w' = python_loglikelihood w
  /\ python_prior w' = python_prior w.


(** A conversion that reports a failure only with the error indicator
    raised. *)
Definition fails_loudly {A : Type} (m : M (option A)) : Prop :=
  forall w w', m w = Returned None w' -> PyErr_pending w' = true.

(** Not a Python list. *)
Definition not_a_list (op : PyObject) : bool :=
  match op with
  | PyList _ => false
  | _ => true
  end.

(** Not a function object. *)
Definition not_callable (op : PyObject) : bool :=
  match op with
  | PyFunction _ => false
  | _ => true
  end.

(** ** Basic facts about the primitives *)

Section Primitives.

Implicit Types (w : World) (buf : list float) (items : list PyObject).

Lemma with_PyErr_same w : with_PyErr (PyErr_pending w) w = w.
Proof. by destruct w. Qed.

Lemma with_heap_same w : with_heap (heap w) w = w.
Proof. by destruct w. Qed.

Lemma load_ok w (array : addr) buf (i : nat) (v : float) :
  heap w !! array = Some buf -> buf !! i = Some v ->
  load array (Z.of_nat i) w = Returned v w.
Proof.
  intros Hb Hv. unfold load. rewrite Hb.
  destruct (Z.ltb_spec (Z.of_nat i) 0) as [?|_]; [lia|].
  by rewrite Nat2Z.id, Hv.
Qed.

Lemma store_ok w (array : addr) buf (i : nat) (v : float) :
  heap w !! array = Some buf -> (i < length buf)%nat ->
  store array (Z.of_nat i) v w
  = Returned tt (with_heap (<[array := <[i := v]> buf]> (heap w)) w).
Proof.
  intros Hb Hi. unfold store. rewrite Hb.
  destruct (Z.ltb_spec (Z.of_nat i) 0) as [?|_]; [lia|].
  rewrite Nat2Z.id.
  destruct (lookup_lt_is_Some_2 buf i Hi) as [x ->]. done.
Qed.

Lemma store_out_of_bounds w (array : addr) buf (i : nat) (v : float) :
  heap w !! array = Some buf -> (length buf <= i)%nat ->
  store array (Z.of_nat i) v w = Crashed OutOfBounds.
Proof.
  intros Hb Hi. unfold store. rewrite Hb.
  destruct (Z.ltb_spec (Z.of_nat i) 0) as [?|_]; [lia|].
  by rewrite Nat2Z.id, (lookup_ge_None_2 buf i Hi).
Qed.

Lemma PyList_SET_ITEM_ok w items (i : nat) (old v : PyObject) :
  items !! i = Some old ->
  PyList_SET_ITEM (PyList items) (Z.of_nat i) v w
  = Returned (PyList (<[i := v]> items)) w.
Proof.
  intros Hi. unfold PyList_SET_ITEM.
  destruct (Z.ltb_spec (Z.of_nat i) 0) as [?|_]; [lia|].
  by rewrite Nat2Z.id, Hi.
Qed.

Lemma PyList_GET_ITEM_ok w items (i : nat) (v : PyObject) :
  items !! i = Some v ->
  PyList_GET_ITEM (PyList items) (Z.of_nat i) w = Returned v w.
Proof.
  intros Hi. unfold PyList_GET_ITEM.
  destruct (Z.ltb_spec (Z.of_nat i) 0) as [?|_]; [lia|].
  by rewrite Nat2Z.id, Hi.
Qed.

Lemma int_incr_ok w (i : Z) : i < INT_MAX -> int_incr i w = Returned (i + 1) w.
Proof.
  intros Hi. unfold int_incr.
  by destruct (Z.ltb_spec i INT_MAX) as [_|?]; [|lia].
Qed.

(** [PyFloat_AsDouble] as one world update: the indicator is raised
    exactly when the object has no float value. *)
Lemma PyFloat_AsDouble_eq w (op : PyObject) :
  PyFloat_AsDouble op w
  = Returned (as_double op)
      (with_PyErr (PyErr_pending w || negb (has_float op)) w).
Proof.
  unfold PyFloat_AsDouble, as_double, has_float.
  destruct (nb_float op) as [d|]; simpl.
  - by rewrite orb_false_r, with_PyErr_same.
  - by rewrite orb_true_r.
Qed.

End Primitives.

(** ** The two loops of [convert_list] *)

Section Loops.

Implicit Types (w : World) (buf : list float) (items : list PyObject).

(** The array-to-list loop, started with [filled] items already set and
    [k] NULL items to go: it fills them from the buffer, in order, and
    leaves the world as it was. *)
Lemma array_to_list_loop (array : addr) buf w :
  heap w !! array = Some buf ->
  forall (k : nat) (filled : list PyObject),
    (length filled + k <= length buf)%nat ->
    Z.of_nat (length filled + k) <= INT_MAX ->
    for_int k (Z.of_nat (length filled))
      (fun i list =>
         d <- load array i ;;
         item <- PyFloat_FromDouble d ;;
         PyList_SET_ITEM list i item)
      (PyList (filled ++ replicate k NULL)) w
    = Returned (PyList (filled ++ (PyFloat <$> take k (drop (length filled) buf)))) w.
Proof.
  intros Hbuf k. induction k as [|k IH]; intros filled Hlen Hmax.
  - done.
  - destruct (lookup_lt_is_Some_2 buf (length filled)) as [v Hv]; [lia|].
    cbn [for_int replicate]. unfold bind at 1 2 3.
    rewrite (load_ok _ _ _ _ _ Hbuf Hv). unfold PyFloat_FromDouble, ret at 1.
    rewrite (PyList_SET_ITEM_ok _ _ _ NULL) by (by apply list_lookup_middle).
    unfold bind at 1. rewrite int_incr_ok by lia.
    rewrite insert_app_r_alt, Nat.sub_diag by lia. cbn [insert list_insert].
    rewrite (cons_middle (PyFloat v)), app_assoc.
    replace (Z.of_nat (length filled) + 1) with (Z.of_nat (length (filled ++ [PyFloat v])))
      by (rewrite length_app; simpl; lia).
    rewrite IH by (rewrite length_app; simpl; lia).
    rewrite length_app, (drop_S _ _ _ Hv). simpl.
    rewrite Nat.add_1_r, <- app_assoc. done.
Qed.

(** The list-to-array loop from index [i], with [k] items to go: every
    remaining item is converted and stored at its own index; an item
    without a float value stores -1.0 and raises the error indicator. *)
Lemma list_to_array_loop (array : addr) items :
  forall (k i : nat) buf w,
    heap w !! array = Some buf ->
    (i + k = length items)%nat ->
    (length items <= length buf)%nat ->
    Z.of_nat (length items) <= INT_MAX ->
    for_int k (Z.of_nat i)
      (fun i _ =>
         item <- PyList_GET_ITEM (PyList items) i ;;
         d <- PyFloat_AsDouble item ;;
         store array i d)
      tt w
    = Returned tt
        (with_PyErr (PyErr_pending w || negb (forallb has_float (drop i items)))
           (with_heap
              (<[array := take i buf ++ (as_double <$> drop i items)
                          ++ drop (length items) buf]> (heap w)) w)).
Proof.
  induction k as [|k IH]; intros i buf w Hbuf Hik Hlen Hmax.
  - simpl. rewrite Nat.add_0_r in Hik. subst i.
    rewrite drop_all. simpl. rewrite orb_false_r.
    rewrite take_drop, insert_id by done.
    by rewrite with_heap_same, with_PyErr_same.
  - destruct (lookup_lt_is_Some_2 items i) as [x Hx]; [lia|].
    cbn [for_int]. unfold bind at 1 2 3.
    rewrite (PyList_GET_ITEM_ok _ _ _ _ Hx), PyFloat_AsDouble_eq.
    rewrite (store_ok _ _ buf) by (done || lia).
    unfold bind at 1. rewrite int_incr_ok by lia.
    replace (Z.of_nat i + 1) with (Z.of_nat (S i)) by lia.
    rewrite (IH (S i) (<[i := as_double x]> buf));
      [| by (simpl; rewrite lookup_insert_eq) | lia
       | by rewrite length_insert | done].
    destruct w as [h ll pr e tr]. unfold with_PyErr, with_heap. simpl.
    rewrite insert_insert_eq, (drop_S _ _ _ Hx). simpl.
    rewrite (take_S_r _ _ (as_double x))
      by (apply list_lookup_insert_eq; lia).
    rewrite take_insert_ge, drop_insert_lt by lia.
    rewrite <- app_assoc. simpl.
    rewrite negb_andb, orb_assoc. done.
Qed.

(** When the list is longer than the buffer the loop runs past the
    buffer's end. *)
Lemma list_to_array_loop_overrun (array : addr) items :
  forall (k i : nat) buf w,
    heap w !! array = Some buf ->
    (i + k = length items)%nat ->
    (i <= length buf)%nat ->
    (length buf < length items)%nat ->
    Z.of_nat (length buf) <= INT_MAX ->
    for_int k (Z.of_nat i)
      (fun i _ =>
         item <- PyList_GET_ITEM (PyList items) i ;;
         d <- PyFloat_AsDouble item ;;
         store array i d)
      tt w
    = Crashed OutOfBounds.
Proof.
  induction k as [|k IH]; intros i buf w Hbuf Hik Hi Hlen Hmax; [lia|].
  destruct (lookup_lt_is_Some_2 items i) as [x Hx]; [lia|].
  cbn [for_int]. unfold bind at 1 2 3.
  rewrite (PyList_GET_ITEM_ok _ _ _ _ Hx), PyFloat_AsDouble_eq.
  destruct (decide (i = length buf)) as [->|Hne].
  - by rewrite (store_out_of_bounds _ _ buf).
  - rewrite (store_ok _ _ buf) by (done || lia).
    unfold bind at 1. rewrite int_incr_ok by lia.
    replace (Z.of_nat i + 1) with (Z.of_nat (S i)) by lia.
    apply (IH (S i) (<[i := as_double x]> buf));
      [by (simpl; rewrite lookup_insert_eq) | lia
      | rewrite length_insert; lia | by rewrite length_insert
      | by rewrite length_insert].
Qed.

End Loops.

(** ** The buffer converter *)

Section Converter.

Implicit Types (w : World) (buf : list float) (items : list PyObject).

Lemma PyList_New_ok w (n : nat) :
  PyList_New (Z.of_nat n) w = Returned (PyList (replicate n NULL)) w.
Proof.
  unfold PyList_New.
  destruct (Z.ltb_spec (Z.of_nat n) 0) as [?|_]; [lia|].
  by rewrite Nat2Z.id.
Qed.

Lemma as_double_PyFloat (vals : list float) : as_double <$> (PyFloat <$> vals) = vals.
Proof. induction vals as [|v vals IH]; [done|]. cbn. f_equal. exact IH. Qed.

Lemma has_float_PyFloat (vals : list float) : forallb has_float (PyFloat <$> vals) = true.
Proof. induction vals as [|v vals IH]; [done|]. cbn. exact IH. Qed.

(** Array to list on a fresh list of [n] items. *)
Lemma convert_list_array_to_list_ok (array : addr) buf w (n : nat) :
  heap w !! array = Some buf ->
  (n <= length buf)%nat ->
  Z.of_nat n <= INT_MAX ->
  convert_list_array_to_list array (PyList (replicate n NULL)) w
  = Returned (PyList (PyFloat <$> take n buf)) w.
Proof.
  intros Hbuf Hn Hmax. unfold convert_list_array_to_list, bind. simpl.
  rewrite length_replicate, Nat2Z.id.
  by apply (array_to_list_loop array buf w Hbuf n []).
Qed.

(** List to array when the list fits the buffer. *)
Lemma convert_list_list_to_array_ok items (array : addr) buf w :
  heap w !! array = Some buf ->
  (length items <= length buf)%nat ->
  Z.of_nat (length items) <= INT_MAX ->
  convert_list_list_to_array (PyList items) array w
  = Returned tt
      (with_PyErr (PyErr_pending w || negb (forallb has_float items))
         (with_heap
            (<[array := (as_double <$> items) ++ drop (length items) buf]> (heap w)) w)).
Proof.
  intros Hbuf Hlen Hmax. unfold convert_list_list_to_array, bind. simpl.
  rewrite Nat2Z.id.
  exact (list_to_array_loop array items (length items) 0 buf w Hbuf eq_refl Hlen Hmax).
Qed.

(** List to array when the list is longer than the buffer. *)
Lemma convert_list_list_to_array_overrun items (array : addr) buf w :
  heap w !! array = Some buf ->
  (length buf < length items)%nat ->
  Z.of_nat (length buf) <= INT_MAX ->
  convert_list_list_to_array (PyList items) array w = Crashed OutOfBounds.
Proof.
  intros Hbuf Hlen Hmax. unfold convert_list_list_to_array, bind. simpl.
  rewrite Nat2Z.id.
  apply (list_to_array_loop_overrun array items (length items) 0 buf w); done || lia.
Qed.

End Converter.


(** ** The two callbacks *)

Section Bridges.

Variable interp : nat -> list PyObject -> CallResult.

Implicit Types (w : World) (tbuf pbuf cbuf : list float) (items : list PyObject).

Lemma toContainer_ok (array : addr) (buf : list float) w :
  heap w !! array = Some buf ->
  Z.of_nat (length buf) <= INT_MAX ->
  toContainer array (Z.of_nat (length buf)) w = Returned (PyList (PyFloat <$> buf)) w.
Proof.
  intros Hbuf Hmax. unfold toContainer, bind.
  rewrite PyList_New_ok, (convert_list_array_to_list_ok array buf) by done.
  by rewrite take_ge.
Qed.

Lemma PyObject_CallFunctionObjArgs_eq (code : nat) (args : list PyObject) w :
  objargs args = args ->
  PyObject_CallFunctionObjArgs interp (PyFunction code) args w
  = match returned (interp code args) with
    | NULL => Returned NULL (with_PyErr true (with_event (PyCall (PyFunction code) args) w))
    | result => Returned result (with_event (PyCall (PyFunction code) args) w)
    end.
Proof.
  intros Hargs. unfold PyObject_CallFunctionObjArgs, bind, log_event.
  rewrite !Hargs. by destruct (returned (interp code args)).
Qed.

(** What [loglikelihood] does on buffers of the declared sizes when a
    function object is registered. *)
Lemma loglikelihood_eq (theta phi : addr) tbuf pbuf (code : nat) w :
  heap w !! theta = Some tbuf ->
  heap w !! phi = Some pbuf ->
  Z.of_nat (length tbuf) <= INT_MAX ->
  Z.of_nat (length pbuf) <= INT_MAX ->
  python_loglikelihood w = PyFunction code ->
  loglikelihood interp theta (Z.of_nat (length tbuf)) phi (Z.of_nat (length pbuf)) w
  = let args := [PyList (PyFloat <$> tbuf); PyList (PyFloat <$> pbuf)] in
    let pylogL := returned (interp code args) in
    match pylogL with
    | NULL => Crashed NullDereference
    | _ => Returned (as_double pylogL)
             (with_PyErr (PyErr_pending w || negb (has_float pylogL))
                (with_event (PyCall (PyFunction code) args) w))
    end.
Proof.
  intros Ht Hp Hmt Hmp Hcode. unfold loglikelihood.
  unfold bind at 1. rewrite PyList_New_ok.
  unfold bind at 1. rewrite (convert_list_array_to_list_ok theta tbuf) by done.
  unfold bind at 1. rewrite PyList_New_ok.
  unfold bind at 1. rewrite (convert_list_array_to_list_ok phi pbuf) by done.
  rewrite !take_ge by done.
  unfold bind at 1, gets. rewrite Hcode.
  unfold bind at 1. rewrite PyObject_CallFunctionObjArgs_eq by done.
  cbv zeta.
  destruct (returned (interp code _)) as [| |z|d|s|l|l|c];
    unfold bind at 1; rewrite PyFloat_AsDouble_eq; try done.
  all: by destruct w.
Qed.

(** What [prior] does on a cube of the declared size when the registered
    function object returns a list: the list is copied into [theta] item by
    item, and the copy runs past the end of [theta] when the list is longer
    than that buffer. *)
Lemma prior_eq (cube theta : addr) cbuf tbuf items (code : nat) w :
  heap w !! cube = Some cbuf ->
  heap w !! theta = Some tbuf ->
  Z.of_nat (length cbuf) <= INT_MAX ->
  Z.of_nat (length tbuf) <= INT_MAX ->
  python_prior w = PyFunction code ->
  returned (interp code [PyList (PyFloat <$> cbuf)]) = PyList items ->
  prior interp cube theta (Z.of_nat (length cbuf)) w
  = if decide (length items <= length tbuf)%nat
    then Returned tt
           (with_PyErr (PyErr_pending w || negb (forallb has_float items))
              (with_heap
                 (<[theta := (as_double <$> items) ++ drop (length items) tbuf]> (heap w))
                 (with_event (PyCall (PyFunction code) [PyList (PyFloat <$> cbuf)]) w)))
    else Crashed OutOfBounds.
Proof.
  intros Hc Ht Hmc Hmt Hcode Hret. unfold prior.
  unfold bind at 1. rewrite PyList_New_ok.
  unfold bind at 1. rewrite (convert_list_array_to_list_ok cube cbuf) by done.
  rewrite take_ge by done.
  unfold bind at 1, gets. rewrite Hcode.
  unfold bind at 1. rewrite PyObject_CallFunctionObjArgs_eq, Hret by done.
  unfold bind at 1.
  destruct (decide (length items <= length tbuf)%nat) as [Hle|Hgt].
  - rewrite (convert_list_list_to_array_ok items theta tbuf) by (done || lia).
    done.
  - rewrite (convert_list_list_to_array_overrun items theta tbuf) by (done || lia).
    done.
Qed.

End Bridges.

(** ** Argument parsing *)

Create HintDb parse discriminated.

Section Parsing.

Implicit Types (w : World).

Lemma with_PyErr_twice (b b' : bool) w : with_PyErr b' (with_PyErr b w) = with_PyErr b' w.
Proof. done. Qed.

Lemma touches_ret {A} (a : A) : touches_only_PyErr (ret a).
Proof. intros w. exists a, (PyErr_pending w). by rewrite with_PyErr_same. Qed.

Lemma touches_PyErr_Set : touches_only_PyErr PyErr_Set.
Proof. intros w. by exists tt, true. Qed.

Lemma touches_bind {A B} (m : M A) (k : A -> M B) :
  touches_only_PyErr m -> (forall a, touches_only_PyErr (k a)) ->
  touches_only_PyErr (bind m k).
Proof.
  intros Hm Hk w. unfold bind.
  destruct (Hm w) as (a & b & ->).
  destruct (Hk a (with_PyErr b w)) as (c & b' & ->).
  exists c, b'. by rewrite with_PyErr_twice.
Qed.

Lemma touches_bind_opt {A B} (m : M (option A)) (k : A -> M (option B)) :
  touches_only_PyErr m -> (forall a, touches_only_PyErr (k a)) ->
  touches_only_PyErr (bind_opt m k).
Proof.
  intros Hm Hk. apply touches_bind; [done|].
  intros [a|]; [apply Hk | apply touches_ret].
Qed.

Lemma touches_gets {A} (f : World -> A) : touches_only_PyErr (gets f).
Proof. intros w. exists (f w), (PyErr_pending w). by rewrite with_PyErr_same. Qed.

Lemma touches_fail {A} : touches_only_PyErr (PyErr_Set ;; ret (@None A)).
Proof. apply touches_bind; [apply touches_PyErr_Set | intros; apply touches_ret]. Qed.

Lemma touches_convert_i (arg : PyObject) : touches_only_PyErr (convert_i arg).
Proof.
  destruct arg as [| |z| | | | |]; try apply touches_fail.
  unfold convert_i. destruct (fits_long z); [|apply touches_fail].
  apply touches_bind; [apply touches_gets|]. intros e.
  destruct ((z =? -1) && e); [apply touches_ret|].
  destruct (fits_int z); [apply touches_ret | apply touches_fail].
Qed.

Lemma touches_convert_d (arg : PyObject) : touches_only_PyErr (convert_d arg).
Proof.
  intros w. unfold convert_d, bind, PyErr_Occurred, gets.
  rewrite PyFloat_AsDouble_eq. simpl.
  destruct (PyErr_pending w || negb (has_float arg)); eauto.
Qed.

Lemma touches_convert_s (arg : PyObject) : touches_only_PyErr (convert_s arg).
Proof.
  destruct arg; try apply touches_fail.
  unfold convert_s. destruct (has_nul _); [apply touches_fail | apply touches_ret].
Qed.

Lemma fits_int_long (z : Z) : fits_int z = true -> fits_long z = true.
Proof. unfold fits_int, fits_long, INT_MIN, INT_MAX, LONG_MIN, LONG_MAX. lia. Qed.

Lemma convert_i_ok (z : Z) w :
  fits_int z = true -> PyErr_pending w = false ->
  convert_i (PyInt z) w = Returned (Some z) w.
Proof.
  intros Hz He. unfold convert_i, bind, PyErr_Occurred, gets.
  by rewrite (fits_int_long z Hz), He, andb_false_r, Hz.
Qed.

Lemma convert_d_ok (d : float) w :
  PyErr_pending w = false -> convert_d (PyFloat d) w = Returned (Some d) w.
Proof. intros He. unfold convert_d, bind, PyErr_Occurred, gets. simpl. by rewrite He. Qed.

Lemma convert_s_ok (s : string) w :
  has_nul s = false -> convert_s (PyString s) w = Returned (Some s) w.
Proof. intros Hs. unfold convert_s. by rewrite Hs. Qed.

Lemma bind_opt_ok {A B} (m : M (option A)) (k : A -> M (option B)) (a : A) w w' :
  m w = Returned (Some a) w' -> bind_opt m k w = k a w'.
Proof. intros Hm. unfold bind_opt, bind. by rewrite Hm. Qed.

End Parsing.

#[export] Hint Resolve touches_convert_i touches_convert_d touches_convert_s : parse.
#[export] Hint Resolve convert_i_ok convert_d_ok convert_s_ok : parse.

Section ParseTuple.

Implicit Types (w : World) (cfg : Config).

(** A tuple of 23 items always parses to a verdict, and whatever the
    verdict the two statics hold the first two items afterwards. *)
Lemma PyArg_ParseTuple_binds (a0 a1 : PyObject) (rest : list PyObject) w :
  length rest = 21%nat ->
  exists r b,
    PyArg_ParseTuple (PyTuple (a0 :: a1 :: rest)) w
    = Returned r (with_PyErr b (with_python_prior a1 (with_python_loglikelihood a0 w))).
Proof.
  intros Hlen.
  do 21 (destruct rest as [|? rest]; [discriminate Hlen|]).
  destruct rest; [|discriminate Hlen].
  unfold PyArg_ParseTuple. unfold bind at 1 2, modify.
  match goal with
  | |- exists r b, ?m ?w' = _ =>
      assert (touches_only_PyErr m) as Hm
  end.
  { repeat (apply touches_bind_opt; [auto with parse | intros ?]).
    apply touches_ret. }
  destruct (Hm (with_python_prior a1 (with_python_loglikelihood a0 w))) as (r & b & Hr).
  by exists r, b.
Qed.

(** A representable configuration, passed from Python with no error
    pending, parses to itself. *)
Lemma PyArg_ParseTuple_ok (likelihood prior_fn : PyObject) cfg w :
  representable cfg = true ->
  PyErr_pending w = false ->
  PyArg_ParseTuple (run_args likelihood prior_fn cfg) w
  = Returned (Some cfg) (with_python_prior prior_fn (with_python_loglikelihood likelihood w)).
Proof.
  intros Hrep Herr. destruct cfg. unfold representable, int_fields in Hrep.
  cbn [forallb base_dir file_root nDims nDerived nlive num_repeats do_clustering
       feedback max_ndead posteriors equals cluster_posteriors write_resume
       write_paramnames read_resume write_stats write_live write_dead
       update_files] in Hrep.
  apply andb_prop in Hrep as [Hrep Hfile]. apply andb_prop in Hrep as [Hints Hbase].
  apply negb_true_iff in Hfile, Hbase.
  repeat (apply andb_prop in Hints as [? Hints]).
  unfold run_args, PyArg_ParseTuple. cbn [base_dir file_root nDims nDerived nlive
       num_repeats do_clustering feedback max_ndead posteriors equals
       cluster_posteriors write_resume write_paramnames read_resume write_stats
       write_live write_dead update_files precision_criterion boost_posterior].
  unfold bind at 1 2, modify.
  repeat (erewrite bind_opt_ok
            by (eauto with parse
                || (apply convert_i_ok; [assumption | exact Herr])
                || (apply convert_d_ok; exact Herr))).
  done.
Qed.

(** Parsing never touches the buffers or the trace. *)
Lemma PyArg_ParseTuple_frame (args : PyObject) w (r : option Config) w' :
  PyArg_ParseTuple args w = Returned r w' ->
  heap w' = heap w /\ trace w' = trace w.
Proof.
  destruct args as [| | | | | |items|]; try (intros [= <- <-]; done).
  do 23 (destruct items as [|? items]; [intros [= <- <-]; done|]).
  destruct items; [|intros [= <- <-]; done].
  intros Hp.
  match type of Hp with
  | PyArg_ParseTuple (PyTuple (?a0 :: ?a1 :: ?rest)) _ = _ =>
      destruct (PyArg_ParseTuple_binds a0 a1 rest w eq_refl) as (r' & b & Hb)
  end.
  rewrite Hb in Hp. by injection Hp as <- <-.
Qed.

End ParseTuple.

(** ** The callbacks only read the registry *)

Create HintDb statics discriminated.

Section Statics.

Variable interp : nat -> list PyObject -> CallResult.

Lemma keeps_ret {A} (a : A) : keeps_statics (ret a).
Proof. by intros w b w' [= _ <-]. Qed.

Lemma keeps_crash {A} (f : Fault) : keeps_statics (@crash A f).
Proof. by intros w b w' [=]. Qed.

Lemma keeps_bind {A B} (m : M A) (k : A -> M B) :
  keeps_statics m -> (forall a, keeps_statics (k a)) -> keeps_statics (bind m k).
Proof.
  intros Hm Hk w b w'. unfold bind.
  destruct (m w) as [a w1|f] eqn:Hmw; [|done].
  intros Hkw. destruct (Hm _ _ _ Hmw) as [E1 E2].
  destruct (Hk a _ _ _ Hkw) as [E3 E4]. split; congruence.
Qed.

Lemma keeps_PyErr_Set : keeps_statics PyErr_Set.
Proof. by intros w b w' [= _ <-]. Qed.

Lemma keeps_log_event (e : Event) : keeps_statics (log_event e).
Proof. by intros w b w' [= _ <-]. Qed.

Lemma keeps_gets {A} (f : World -> A) : keeps_statics (gets f).
Proof. by intros w b w' [= _ <-]. Qed.

Lemma keeps_load (array : addr) (i : Z) : keeps_statics (load array i).
Proof.
  intros w b w'. unfold load.
  destruct (heap w !! array) as [buf|]; [|done].
  destruct (i <? 0); [done|]. destruct (buf !! Z.to_nat i); [|done].
  by intros [= _ <-].
Qed.

Lemma keeps_store (array : addr) (i : Z) (v : float) : keeps_statics (store array i v).
Proof.
  intros w b w'. unfold store.
  destruct (heap w !! array) as [buf|]; [|done].
  destruct (i <? 0); [done|]. destruct (buf !! Z.to_nat i); [|done].
  by intros [= _ <-].
Qed.

Lemma keeps_int_incr (i : Z) : keeps_statics (int_incr i).
Proof. unfold int_incr. destruct (i <? INT_MAX); [apply keeps_ret | apply keeps_crash]. Qed.

Lemma keeps_for_int {S} (body : Z -> S -> M S) :
  (forall i s, keeps_statics (body i s)) ->
  forall n i s, keeps_statics (for_int n i body s).
Proof.
  intros Hbody n. induction n as [|n IH]; intros i s; cbn [for_int].
  - apply keeps_ret.
  - apply keeps_bind; [apply Hbody|]. intros s'.
    apply keeps_bind; [apply keeps_int_incr|]. intros i'. apply IH.
Qed.

Lemma keeps_fail {A} (a : A) : keeps_statics (PyErr_Set ;; ret a).
Proof. apply keeps_bind; [apply keeps_PyErr_Set | intros; apply keeps_ret]. Qed.

Lemma keeps_PyList_New (n : Z) : keeps_statics (PyList_New n).
Proof. unfold PyList_New. destruct (n <? 0); [apply keeps_fail | apply keeps_ret]. Qed.

Lemma keeps_PyList_Size (op : PyObject) : keeps_statics (PyList_Size op).
Proof. destruct op; first [apply keeps_crash | apply keeps_ret | apply keeps_fail]. Qed.

Lemma keeps_PyList_SET_ITEM (op : PyObject) (i : Z) (v : PyObject) :
  keeps_statics (PyList_SET_ITEM op i v).
Proof.
  destruct op as [| | | | |items| |]; try apply keeps_crash.
  unfold PyList_SET_ITEM. destruct (i <? 0); [apply keeps_crash|].
  destruct (items !! Z.to_nat i); [apply keeps_ret | apply keeps_crash].
Qed.

Lemma keeps_PyList_GET_ITEM (op : PyObject) (i : Z) : keeps_statics (PyList_GET_ITEM op i).
Proof.
  destruct op as [| | | | |items| |]; try apply keeps_crash.
  unfold PyList_GET_ITEM. destruct (i <? 0); [apply keeps_crash|].
  destruct (items !! Z.to_nat i); [apply keeps_ret | apply keeps_crash].
Qed.

Lemma keeps_PyFloat_AsDouble (op : PyObject) : keeps_statics (PyFloat_AsDouble op).
Proof.
  unfold PyFloat_AsDouble. destruct (nb_float op); [apply keeps_ret | apply keeps_fail].
Qed.

Lemma keeps_PyFloat_FromDouble (d : float) : keeps_statics (PyFloat_FromDouble d).
Proof. apply keeps_ret. Qed.

Lemma keeps_Py_DECREF (op : PyObject) : keeps_statics (Py_DECREF op).
Proof. destruct op; first [apply keeps_crash | apply keeps_ret]. Qed.

Lemma keeps_PyObject_CallFunctionObjArgs (callable : PyObject) (args : list PyObject) :
  keeps_statics (PyObject_CallFunctionObjArgs interp callable args).
Proof.
  destruct callable; try apply keeps_fail.
  unfold PyObject_CallFunctionObjArgs.
  apply keeps_bind; [apply keeps_log_event|]. intros _.
  destruct (returned _); first [apply keeps_fail | apply keeps_ret].
Qed.

End Statics.

#[export] Hint Resolve keeps_ret keeps_crash keeps_PyErr_Set keeps_log_event
  keeps_gets keeps_load keeps_store keeps_int_incr keeps_PyList_New
  keeps_PyList_Size keeps_PyList_SET_ITEM keeps_PyList_GET_ITEM
  keeps_PyFloat_AsDouble keeps_PyFloat_FromDouble keeps_Py_DECREF
  keeps_PyObject_CallFunctionObjArgs : statics.

(** Walk down a sequence of binds, closing each step from the hints. *)
Ltac keeps :=
  repeat first
    [ solve [auto with statics]
    | apply keeps_for_int; intros ? ?
    | apply keeps_bind; [|intros ?] ].

Section StaticsOfCallbacks.

Variable interp : nat -> list PyObject -> CallResult.

Lemma keeps_convert_list_array_to_list (array : addr) (list : PyObject) :
  keeps_statics (convert_list_array_to_list array list).
Proof. unfold convert_list_array_to_list. keeps. Qed.

Lemma keeps_convert_list_list_to_array (list : PyObject) (array : addr) :
  keeps_statics (convert_list_list_to_array list array).
Proof. unfold convert_list_list_to_array. keeps. Qed.

Lemma keeps_loglikelihood (theta : addr) (nDims : Z) (phi : addr) (nDerived : Z) :
  keeps_statics (loglikelihood interp theta nDims phi nDerived).
Proof.
  unfold loglikelihood.
  pose proof keeps_convert_list_array_to_list. keeps.
Qed.

Lemma keeps_prior (cube theta : addr) (nDims : Z) :
  keeps_statics (prior interp cube theta nDims).
Proof.
  unfold prior.
  pose proof keeps_convert_list_array_to_list.
  pose proof keeps_convert_list_list_to_array. keeps.
Qed.

End StaticsOfCallbacks.


(** ** The buffer converter: what the specification asks of it *)

Section ConverterClaims.

Implicit Types (w : World) (buf vals : list float) (items : list PyObject).

(** C9: for a buffer of declared length [n] (an [int], so at most
    [INT_MAX]), [toContainer] gives a list of exactly [n] items, and copying
    that list into a second buffer of length [n] with the list-to-array
    [convert_list] leaves the original [n] values there, unchanged and in
    order; nothing else in the world changes. *)
Theorem convert_list_round_trip (buf1 buf2 : addr) (vals vals2 : list float) w :
  heap w !! buf1 = Some vals ->
  heap w !! buf2 = Some vals2 ->
  length vals2 = length vals ->
  Z.of_nat (length vals) <= INT_MAX ->
  exists items,
    toContainer buf1 (Z.of_nat (length vals)) w = Returned (PyList items) w
    /\ length items = length vals
    /\ convert_list_list_to_array (PyList items) buf2 w
       = Returned tt (with_heap (<[buf2 := vals]> (heap w)) w).
Proof.
  intros H1 H2 Hlen Hmax. exists (PyFloat <$> vals). split; [|split].
  - by apply toContainer_ok.
  - by rewrite length_fmap.
  - rewrite (convert_list_list_to_array_ok _ buf2 vals2)
      by (rewrite ?length_fmap; done || lia).
    rewrite has_float_PyFloat, as_double_PyFloat, length_fmap.
    rewrite drop_ge, app_nil_r by lia. cbn [negb].
    rewrite orb_false_r. by destruct w.
Qed.

(** The two values of the demo [cube] go through a list and arrive in the
    demo [theta]. *)
Lemma convert_list_round_trip_witness :
  exists items,
    toContainer 1%positive 2 demo_world = Returned (PyList items) demo_world
    /\ length items = 2%nat
    /\ convert_list_list_to_array (PyList items) 2%positive demo_world
       = Returned tt
           (with_heap (<[2%positive := [0.5; 0.5]%float]> (heap demo_world)) demo_world).
Proof.
  apply (convert_list_round_trip 1%positive 2%positive
           [0.5; 0.5]%float [0; 0]%float demo_world);
    [reflexivity | reflexivity | reflexivity | vm_compute; discriminate].
Defined.

(** C3, as the code has it: the list-to-array [convert_list] takes no
    declared length; the size of the list alone drives it.  On a list that
    fits the buffer it returns normally, having written exactly
    [length items] elements, [array[i]] being the float value of item [i],
    and having left the elements behind them as they were.  A difference in
    size is not signalled: the error indicator is raised only by an item
    that has no float value, and the trace is untouched.  A list longer than
    the buffer is not truncated either: the stores run past the buffer's
    end. *)
Theorem convert_list_writes_list_size items (array : addr) buf w :
  heap w !! array = Some buf ->
  Z.of_nat (length buf) <= INT_MAX ->
  ((length items <= length buf)%nat ->
   exists w',
     convert_list_list_to_array (PyList items) array w = Returned tt w'
     /\ heap w' !! array = Some ((as_double <$> items) ++ drop (length items) buf)
     /\ PyErr_pending w' = PyErr_pending w || negb (forallb has_float items)
     /\ trace w' = trace w)
  /\ ((length buf < length items)%nat ->
      convert_list_list_to_array (PyList items) array w = Crashed OutOfBounds).
Proof.
  intros Hbuf Hmax. split; intros Hlen.
  - eexists. split.
    + apply (convert_list_list_to_array_ok items array buf); done || lia.
    + simpl. by rewrite lookup_insert_eq.
  - by apply (convert_list_list_to_array_overrun items array buf).
Qed.

(** A list of one item written into the demo [theta] of two elements. *)
Lemma convert_list_writes_list_size_witness :
  ((length [PyFloat 1] <= 2)%nat ->
   exists w',
     convert_list_list_to_array (PyList [PyFloat 1]) 2%positive demo_world
     = Returned tt w'
     /\ heap w' !! 2%positive = Some [1; 0]%float
     /\ PyErr_pending w' = false
     /\ trace w' = [])
  /\ ((2 < length [PyFloat 1])%nat ->
      convert_list_list_to_array (PyList [PyFloat 1]) 2%positive demo_world
      = Crashed OutOfBounds).
Proof.
  apply (convert_list_writes_list_size [PyFloat 1] 2%positive [0; 0]%float demo_world);
    [reflexivity | vm_compute; discriminate].
Defined.

(** C3 fails as stated: a list of one item and a buffer of declared length
    two differ in size, yet the conversion returns normally with no error
    pending; the second element silently keeps its old value. *)
Lemma convert_list_short_list_no_signal :
  convert_list_list_to_array (PyList [PyFloat 1]) 2%positive demo_world
  = Returned tt (with_heap (<[2%positive := [1; 0]%float]> (heap demo_world)) demo_world)
  /\ heap demo_world !! 2%positive = Some [0; 0]%float
  /\ PyErr_pending demo_world = false.
Proof. split; [|split]; reflexivity. Qed.

End ConverterClaims.

(** ** The likelihood callback *)

Section LikelihoodClaims.

Variable interp : nat -> list PyObject -> CallResult.

Implicit Types (w : World) (tbuf pbuf : list float).

(** C1, what the code does instead: whatever the registered callable hands
    back -- a float, a pair with an updated container, a list updated in
    place -- as long as it does not raise, [loglikelihood] returns with every
    native buffer as it was: [phi] is never written, and neither is
    [theta]. *)
Theorem loglikelihood_leaves_phi_unwritten (theta phi : addr) tbuf pbuf (code : nat) w :
  heap w !! theta = Some tbuf ->
  heap w !! phi = Some pbuf ->
  Z.of_nat (length tbuf) <= INT_MAX ->
  Z.of_nat (length pbuf) <= INT_MAX ->
  python_loglikelihood w = PyFunction code ->
  returned (interp code [PyList (PyFloat <$> tbuf); PyList (PyFloat <$> pbuf)]) <> NULL ->
  exists logL w',
    loglikelihood interp theta (Z.of_nat (length tbuf)) phi (Z.of_nat (length pbuf)) w
    = Returned logL w'
    /\ heap w' = heap w
    /\ heap w' !! phi = Some pbuf
    /\ heap w' !! theta = Some tbuf.
Proof.
  intros Ht Hp Hmt Hmp Hcode Hres.
  rewrite (loglikelihood_eq interp theta phi tbuf pbuf code) by done. cbv zeta.
  destruct (returned _) eqn:E; [done|..]; eauto 10.
Qed.

(** C4, as the code has it: the registered callable is called once, with
    the list made from [theta] and the list made from [phi]; the value
    returned to the engine is [PyFloat_AsDouble] of the whole object that
    comes back.  That is the callable's float when it returns a float, and
    -1.0 with the error indicator raised when it returns a tuple: no part of
    a two-part result is taken out. *)
Theorem loglikelihood_returns_float_of_result
    (theta phi : addr) tbuf pbuf (code : nat) w :
  heap w !! theta = Some tbuf ->
  heap w !! phi = Some pbuf ->
  Z.of_nat (length tbuf) <= INT_MAX ->
  Z.of_nat (length pbuf) <= INT_MAX ->
  python_loglikelihood w = PyFunction code ->
  returned (interp code [PyList (PyFloat <$> tbuf); PyList (PyFloat <$> pbuf)]) <> NULL ->
  exists w',
    loglikelihood interp theta (Z.of_nat (length tbuf)) phi (Z.of_nat (length pbuf)) w
    = Returned
        (as_double
           (returned (interp code [PyList (PyFloat <$> tbuf); PyList (PyFloat <$> pbuf)])))
        w'
    /\ trace w'
       = trace w
         ++ [PyCall (PyFunction code) [PyList (PyFloat <$> tbuf); PyList (PyFloat <$> pbuf)]]
    /\ (forall d : float,
          returned (interp code [PyList (PyFloat <$> tbuf); PyList (PyFloat <$> pbuf)])
          = PyFloat d ->
          loglikelihood interp theta (Z.of_nat (length tbuf)) phi (Z.of_nat (length pbuf)) w
          = Returned d w')
    /\ (forall parts : list PyObject,
          returned (interp code [PyList (PyFloat <$> tbuf); PyList (PyFloat <$> pbuf)])
          = PyTuple parts ->
          loglikelihood interp theta (Z.of_nat (length tbuf)) phi (Z.of_nat (length pbuf)) w
          = Returned (-1)%float w'
          /\ PyErr_pending w' = true).
Proof.
  intros Ht Hp Hmt Hmp Hcode Hres.
  rewrite (loglikelihood_eq interp theta phi tbuf pbuf code) by done. cbv zeta.
  destruct (returned _) eqn:E; [done|..]; eexists; (split; [reflexivity|]);
    (split; [reflexivity|]); (split; [by intros d [= <-]|]); intros parts [= <-].
  split; [done|]. simpl. apply orb_true_r.
Qed.

(** C2, as the code has it: [loglikelihood] checks nothing.  When the
    callable raises, the last [Py_DECREF] dereferences NULL.  When it returns
    an object without a float value, the callback returns -1.0 to the engine
    with the error indicator raised and the buffers untouched; a pair of a
    scalar and a container is such an object whatever the container's length,
    so no length is ever compared and nothing is padded. *)
Theorem loglikelihood_failure_policy (theta phi : addr) tbuf pbuf (code : nat) w :
  heap w !! theta = Some tbuf ->
  heap w !! phi = Some pbuf ->
  Z.of_nat (length tbuf) <= INT_MAX ->
  Z.of_nat (length pbuf) <= INT_MAX ->
  python_loglikelihood w = PyFunction code ->
  (returned (interp code [PyList (PyFloat <$> tbuf); PyList (PyFloat <$> pbuf)]) = NULL ->
   loglikelihood interp theta (Z.of_nat (length tbuf)) phi (Z.of_nat (length pbuf)) w
   = Crashed NullDereference)
  /\ (returned (interp code [PyList (PyFloat <$> tbuf); PyList (PyFloat <$> pbuf)]) <> NULL ->
      has_float (returned (interp code [PyList (PyFloat <$> tbuf); PyList (PyFloat <$> pbuf)]))
      = false ->
      exists w',
        loglikelihood interp theta (Z.of_nat (length tbuf)) phi (Z.of_nat (length pbuf)) w
        = Returned (-1)%float w'
        /\ PyErr_pending w' = true
        /\ heap w' = heap w)
  /\ (forall (scalar : PyObject) (derived : list PyObject),
        returned (interp code [PyList (PyFloat <$> tbuf); PyList (PyFloat <$> pbuf)])
        = PyTuple [scalar; PyList derived] ->
        exists w',
          loglikelihood interp theta (Z.of_nat (length tbuf)) phi (Z.of_nat (length pbuf)) w
          = Returned (-1)%float w'
          /\ PyErr_pending w' = true
          /\ heap w' = heap w).
Proof.
  intros Ht Hp Hmt Hmp Hcode.
  rewrite (loglikelihood_eq interp theta phi tbuf pbuf code) by done. cbv zeta.
  split; [|split].
  - by intros ->.
  - intros Hres Hfloat.
    assert (as_double (returned (interp code
              [PyList (PyFloat <$> tbuf); PyList (PyFloat <$> pbuf)])) = (-1)%float) as Hd.
    { unfold as_double. unfold has_float in Hfloat. by destruct (nb_float _). }
    destruct (returned _) eqn:E; [done|..]; rewrite Hd, Hfloat;
      eexists; (split; [reflexivity|]); (split; [apply orb_true_r | done]).
  - intros scalar derived ->. eexists. split; [reflexivity|].
    split; [apply orb_true_r | done].
Qed.

End LikelihoodClaims.

Section LikelihoodScenarios.

(** The world of [demo_world] with callable 2, which returns the pair
    (2.0, [7.0]), registered as the likelihood. *)
Lemma loglikelihood_leaves_phi_unwritten_witness :
  returned (demo_interp 2 [PyList [PyFloat 0; PyFloat 0]; PyList [PyFloat 0]])
  = PyTuple [PyFloat 2; PyList [PyFloat 7]]
  /\ exists logL w',
       loglikelihood demo_interp 2%positive 2 3%positive 1
         (with_python_loglikelihood (PyFunction 2) demo_world)
       = Returned logL w'
       /\ heap w' = demo_heap
       /\ heap w' !! 3%positive = Some [0]%float
       /\ heap w' !! 2%positive = Some [0; 0]%float.
Proof.
  split; [reflexivity|].
  apply (loglikelihood_leaves_phi_unwritten demo_interp 2%positive 3%positive
           [0; 0]%float [0]%float 2
           (with_python_loglikelihood (PyFunction 2) demo_world));
    [reflexivity | reflexivity | vm_compute; discriminate | vm_compute; discriminate
    | reflexivity | discriminate].
Defined.

(** The module's own convention fares no better: callable 0 stores 7.0
    into its second argument and returns 2.0; the 2.0 arrives, the 7.0 does
    not. *)
Example loglikelihood_in_place_update_lost :
  args_after (demo_interp 0 [PyList [PyFloat 0; PyFloat 0]; PyList [PyFloat 0]])
  = [PyList [PyFloat 0; PyFloat 0]; PyList [PyFloat 7]]
  /\ loglikelihood demo_interp 2%positive 2 3%positive 1 demo_world
     = Returned 2%float
         (with_event
            (PyCall (PyFunction 0) [PyList [PyFloat 0; PyFloat 0]; PyList [PyFloat 0]])
            demo_world).
Proof. split; reflexivity. Qed.

(** Callable 0 returns the float 2.0: the engine receives 2.0. *)
Lemma loglikelihood_returns_float_of_result_witness :
  exists w',
    loglikelihood demo_interp 2%positive 2 3%positive 1 demo_world = Returned 2%float w'
    /\ trace w'
       = [PyCall (PyFunction 0) [PyList [PyFloat 0; PyFloat 0]; PyList [PyFloat 0]]]
    /\ (forall d : float,
          PyFloat 2 = PyFloat d ->
          loglikelihood demo_interp 2%positive 2 3%positive 1 demo_world = Returned d w')
    /\ (forall parts : list PyObject,
          PyFloat 2 = PyTuple parts ->
          loglikelihood demo_interp 2%positive 2 3%positive 1 demo_world
          = Returned (-1)%float w'
          /\ PyErr_pending w' = true).
Proof.
  apply (loglikelihood_returns_float_of_result demo_interp 2%positive 3%positive
           [0; 0]%float [0]%float 0 demo_world);
    [reflexivity | reflexivity | vm_compute; discriminate | vm_compute; discriminate
    | reflexivity | discriminate].
Defined.

(** C4 fails as stated: callable 2 returns the two-part result
    (2.0, [7.0]); the engine receives -1.0, not the scalar part 2.0. *)
Lemma loglikelihood_pair_result_not_unpacked :
  returned (demo_interp 2 [PyList [PyFloat 0; PyFloat 0]; PyList [PyFloat 0]])
  = PyTuple [PyFloat 2; PyList [PyFloat 7]]
  /\ loglikelihood demo_interp 2%positive 2 3%positive 1
       (with_python_loglikelihood (PyFunction 2) demo_world)
     = Returned (-1)%float
         (with_PyErr true
            (with_event
               (PyCall (PyFunction 2) [PyList [PyFloat 0; PyFloat 0]; PyList [PyFloat 0]])
               (with_python_loglikelihood (PyFunction 2) demo_world)))
  /\ PrimFloat.eqb (-1) 2 = false.
Proof. split; [|split]; reflexivity. Qed.

(** Two derived parameters declared, callable 2 registered. *)
Lemma loglikelihood_failure_policy_witness :
  (returned (demo_interp 2 [PyList [PyFloat 0; PyFloat 0]; PyList [PyFloat 0; PyFloat 0]])
   = NULL ->
   loglikelihood demo_interp 2%positive 2 4%positive 2
     (with_python_loglikelihood (PyFunction 2) demo_world)
   = Crashed NullDereference)
  /\ (returned (demo_interp 2 [PyList [PyFloat 0; PyFloat 0]; PyList [PyFloat 0; PyFloat 0]])
      <> NULL ->
      has_float
        (returned (demo_interp 2 [PyList [PyFloat 0; PyFloat 0]; PyList [PyFloat 0; PyFloat 0]]))
      = false ->
      exists w',
        loglikelihood demo_interp 2%positive 2 4%positive 2
          (with_python_loglikelihood (PyFunction 2) demo_world)
        = Returned (-1)%float w'
        /\ PyErr_pending w' = true
        /\ heap w' = demo_heap)
  /\ (forall (scalar : PyObject) (derived : list PyObject),
        returned (demo_interp 2 [PyList [PyFloat 0; PyFloat 0]; PyList [PyFloat 0; PyFloat 0]])
        = PyTuple [scalar; PyList derived] ->
        exists w',
          loglikelihood demo_interp 2%positive 2 4%positive 2
            (with_python_loglikelihood (PyFunction 2) demo_world)
          = Returned (-1)%float w'
          /\ PyErr_pending w' = true
          /\ heap w' = demo_heap).
Proof.
  apply (loglikelihood_failure_policy demo_interp 2%positive 4%positive
           [0; 0]%float [0; 0]%float 2
           (with_python_loglikelihood (PyFunction 2) demo_world));
    [reflexivity | reflexivity | vm_compute; discriminate | vm_compute; discriminate
    | reflexivity].
Defined.

(** C2 fails as stated: with two derived parameters declared, callable 2
    returns a container of one item; [loglikelihood] returns -1.0 to the
    engine as if it were a likelihood, and nothing stops the run. *)
Lemma loglikelihood_short_container_not_refused :
  returned (demo_interp 2 [PyList [PyFloat 0; PyFloat 0]; PyList [PyFloat 0; PyFloat 0]])
  = PyTuple [PyFloat 2; PyList [PyFloat 7]]
  /\ loglikelihood demo_interp 2%positive 2 4%positive 2
       (with_python_loglikelihood (PyFunction 2) demo_world)
     = Returned (-1)%float
         (with_PyErr true
            (with_event
               (PyCall (PyFunction 2)
                  [PyList [PyFloat 0; PyFloat 0]; PyList [PyFloat 0; PyFloat 0]])
               (with_python_loglikelihood (PyFunction 2) demo_world))).
Proof. split; reflexivity. Qed.

End LikelihoodScenarios.

(** ** The prior callback *)

Section PriorClaims.

Variable interp : nat -> list PyObject -> CallResult.

Implicit Types (w : World) (cbuf tbuf : list float) (items : list PyObject).

(** C5: on two distinct buffers of [nDims] elements, with a registered
    prior that returns a list of [nDims] items, [prior] calls the callable
    once, on the list of the [nDims] values of [cube]; afterwards [theta]
    holds the float values of the returned items, in order (the very floats
    when the items are floats), and [cube] holds what it held. *)
Theorem prior_writes_theta (cube theta : addr) cbuf tbuf items (code : nat) w :
  cube <> theta ->
  heap w !! cube = Some cbuf ->
  heap w !! theta = Some tbuf ->
  Z.of_nat (length cbuf) <= INT_MAX ->
  length tbuf = length cbuf ->
  python_prior w = PyFunction code ->
  returned (interp code [PyList (PyFloat <$> cbuf)]) = PyList items ->
  length items = length cbuf ->
  exists w',
    prior interp cube theta (Z.of_nat (length cbuf)) w = Returned tt w'
    /\ trace w' = trace w ++ [PyCall (PyFunction code) [PyList (PyFloat <$> cbuf)]]
    /\ length (PyFloat <$> cbuf) = length cbuf
    /\ heap w' !! theta = Some (as_double <$> items)
    /\ (forall vals : list float, items = PyFloat <$> vals -> heap w' !! theta = Some vals)
    /\ heap w' !! cube = Some cbuf.
Proof.
  intros Hne Hc Ht Hmax Hlt Hcode Hret Hli.
  rewrite (prior_eq interp cube theta cbuf tbuf items code) by (done || lia).
  rewrite decide_True by lia.
  eexists. split; [reflexivity|]. cbn [trace heap with_PyErr with_heap with_event].
  rewrite lookup_insert_eq, lookup_insert_ne by done.
  rewrite drop_ge, app_nil_r by lia.
  repeat split; [by rewrite length_fmap | | done].
  intros vals ->. by rewrite as_double_PyFloat.
Qed.

(** C10: [theta] has the declared [nDims] elements and the registered prior
    returns a list.  Then the copy into [theta] is driven by the size of that
    list alone.  A list of at most [nDims] items is copied whole, item [i] to
    [theta[i]], the elements of [theta] behind it and every other buffer
    staying as they were; a longer list takes the writes past the end of
    [theta]. *)
Theorem prior_writes_result_size (cube theta : addr) cbuf tbuf items (code : nat) w :
  heap w !! cube = Some cbuf ->
  heap w !! theta = Some tbuf ->
  Z.of_nat (length cbuf) <= INT_MAX ->
  length tbuf = length cbuf ->
  python_prior w = PyFunction code ->
  returned (interp code [PyList (PyFloat <$> cbuf)]) = PyList items ->
  ((length items <= length cbuf)%nat ->
   exists w',
     prior interp cube theta (Z.of_nat (length cbuf)) w = Returned tt w'
     /\ heap w' !! theta = Some ((as_double <$> items) ++ drop (length items) tbuf)
     /\ (forall other : addr, other <> theta -> heap w' !! other = heap w !! other))
  /\ ((length cbuf < length items)%nat ->
      prior interp cube theta (Z.of_nat (length cbuf)) w = Crashed OutOfBounds).
Proof.
  intros Hc Ht Hmax Hlt Hcode Hret.
  rewrite (prior_eq interp cube theta cbuf tbuf items code) by (done || lia).
  split; intros Hsize.
  - rewrite decide_True by lia. eexists. split; [reflexivity|].
    cbn [heap with_PyErr with_heap with_event]. split.
    + by rewrite lookup_insert_eq.
    + intros other Hother. by rewrite lookup_insert_ne.
  - by rewrite decide_False by lia.
Qed.

End PriorClaims.

Section PriorScenarios.

(** The specification's example: [cube = [0.5, 0.5]] and the prior
    [theta_i = 10 * cube_i] leave [theta = [5.0, 5.0]] and [cube] as it
    was. *)
Lemma prior_writes_theta_witness :
  exists w',
    prior demo_interp 1%positive 2%positive 2 demo_world = Returned tt w'
    /\ trace w' = [PyCall (PyFunction 1) [PyList [PyFloat 0.5; PyFloat 0.5]]]
    /\ length [PyFloat 0.5; PyFloat 0.5] = 2%nat
    /\ heap w' !! 2%positive = Some [5; 5]%float
    /\ (forall vals : list float,
          [PyFloat 5; PyFloat 5] = PyFloat <$> vals -> heap w' !! 2%positive = Some vals)
    /\ heap w' !! 1%positive = Some [0.5; 0.5]%float.
Proof.
  apply (prior_writes_theta demo_interp 1%positive 2%positive
           [0.5; 0.5]%float [0; 0]%float [PyFloat 5; PyFloat 5] 1 demo_world);
    [discriminate | reflexivity | reflexivity | vm_compute; discriminate
    | reflexivity | reflexivity | reflexivity | reflexivity].
Defined.

(** Prior 3 returns one item for the two declared: [theta[0]] is written,
    [theta[1]] keeps its old value. *)
Lemma prior_writes_result_size_witness :
  ((length [PyFloat 5] <= 2)%nat ->
   exists w',
     prior demo_interp 1%positive 2%positive 2
       (with_python_prior (PyFunction 3) demo_world)
     = Returned tt w'
     /\ heap w' !! 2%positive = Some [5; 0]%float
     /\ (forall other : addr,
           other <> 2%positive -> heap w' !! other = demo_heap !! other))
  /\ ((2 < length [PyFloat 5])%nat ->
      prior demo_interp 1%positive 2%positive 2
        (with_python_prior (PyFunction 3) demo_world)
      = Crashed OutOfBounds).
Proof.
  apply (prior_writes_result_size demo_interp 1%positive 2%positive
           [0.5; 0.5]%float [0; 0]%float [PyFloat 5] 3
           (with_python_prior (PyFunction 3) demo_world));
    [reflexivity | reflexivity | vm_compute; discriminate | reflexivity
    | reflexivity | reflexivity].
Defined.

(** Prior 4 returns three items for the two declared: the third write
    falls outside [theta]. *)
Example prior_long_result_overruns :
  returned (demo_interp 4 [PyList [PyFloat 0.5; PyFloat 0.5]])
  = PyList [PyFloat 5; PyFloat 5; PyFloat 99]
  /\ prior demo_interp 1%positive 2%positive 2
       (with_python_prior (PyFunction 4) demo_world)
     = Crashed OutOfBounds.
Proof. split; reflexivity. Qed.

(** Only a Python list is copied.  Prior 5 returns the tuple (5.0, 5.0):
    [PyList_Size] fails on it, the loop does not run, and [prior] returns
    with [theta] as it was and the error indicator raised. *)
Example prior_tuple_result_not_copied :
  prior demo_interp 1%positive 2%positive 2
    (with_python_prior (PyFunction 5) demo_world)
  = Returned tt
      (with_PyErr true
         (with_event (PyCall (PyFunction 5) [PyList [PyFloat 0.5; PyFloat 0.5]])
            (with_python_prior (PyFunction 5) demo_world))).
Proof. reflexivity. Qed.

End PriorScenarios.

(** ** The entry point *)

Section RunClaims.

Variable interp : nat -> list PyObject -> CallResult.

Variable polychord_c_interface :
  (addr -> Z -> addr -> Z -> M float) -> (addr -> addr -> Z -> M unit) ->
  Config -> M unit.

Implicit Types (w : World) (cfg : Config).

(** After a successful parse the engine is entered, on the two callbacks,
    with the parsed configuration. *)
Lemma run_PyPolyChord_parsed (self args : PyObject) cfg w w1 :
  PyArg_ParseTuple args w = Returned (Some cfg) w1 ->
  run_PyPolyChord interp polychord_c_interface self args w
  = (polychord_c_interface (loglikelihood interp) (prior interp) cfg ;;
     Py_INCREF Py_None ;;
     ret Py_None) (with_event (EngineCall cfg) w1).
Proof. intros Hp. unfold run_PyPolyChord, bind at 1. by rewrite Hp. Qed.

(** After a failed parse the entry point returns NULL at once. *)
Lemma run_PyPolyChord_refused (self args : PyObject) w w1 :
  PyArg_ParseTuple args w = Returned None w1 ->
  run_PyPolyChord interp polychord_c_interface self args w = Returned NULL w1.
Proof. intros Hp. unfold run_PyPolyChord, bind at 1. by rewrite Hp. Qed.

(** C6, as the code has it: nothing releases the registry.  When a run on
    23 arguments returns -- with [None] after the engine has completed, or
    with NULL because a later argument did not parse -- both statics still
    hold the two objects that were passed to this run.  (The engine, a
    separate translation unit, reaches the file-local statics only through
    the callbacks, which leave them alone.) *)
Theorem run_never_releases (self a0 a1 : PyObject) (rest : list PyObject)
    w (result : PyObject) w' :
  length rest = 21%nat ->
  (forall cfg,
     keeps_statics (polychord_c_interface (loglikelihood interp) (prior interp) cfg)) ->
  run_PyPolyChord interp polychord_c_interface self (PyTuple (a0 :: a1 :: rest)) w
  = Returned result w' ->
  python_loglikelihood w' = a0 /\ python_prior w' = a1.
Proof.
  intros Hlen Hengine Hrun.
  destruct (PyArg_ParseTuple_binds a0 a1 rest w Hlen) as ([cfg|] & b & Hparse).
  - rewrite (run_PyPolyChord_parsed _ _ _ _ _ Hparse) in Hrun.
    assert (keeps_statics
              (polychord_c_interface (loglikelihood interp) (prior interp) cfg ;;
               Py_INCREF Py_None ;; ret Py_None)) as Hk.
    { apply keeps_bind; [apply Hengine|]. intros _. unfold Py_INCREF. keeps. }
    by destruct (Hk _ _ _ Hrun) as [-> ->].
  - rewrite (run_PyPolyChord_refused _ _ _ _ Hparse) in Hrun.
    by injection Hrun as <- <-.
Qed.

(** C7, as the code has it: the entry point never looks at the registry
    before writing it.  Whatever the statics hold when a run on 23 arguments
    starts, argument parsing stores the new callables over them, and the
    engine is entered whenever the arguments parse; there is no
    [AlreadyRunning] outcome. *)
Theorem run_rebinds_without_check (self a0 a1 : PyObject) (rest : list PyObject) w :
  length rest = 21%nat ->
  exists (parsed : option Config) (w1 : World),
    PyArg_ParseTuple (PyTuple (a0 :: a1 :: rest)) w = Returned parsed w1
    /\ python_loglikelihood w1 = a0
    /\ python_prior w1 = a1
    /\ run_PyPolyChord interp polychord_c_interface self (PyTuple (a0 :: a1 :: rest)) w
       = match parsed with
         | Some cfg =>
             (polychord_c_interface (loglikelihood interp) (prior interp) cfg ;;
              Py_INCREF Py_None ;;
              ret Py_None) (with_event (EngineCall cfg) w1)
         | None => Returned NULL w1
         end.
Proof.
  intros Hlen.
  destruct (PyArg_ParseTuple_binds a0 a1 rest w Hlen) as (parsed & b & Hparse).
  exists parsed, (with_PyErr b (with_python_prior a1 (with_python_loglikelihood a0 w))).
  repeat split; [done|].
  destruct parsed as [cfg|].
  - by apply run_PyPolyChord_parsed.
  - by apply run_PyPolyChord_refused.
Qed.

(** C8, as the code has it: before the engine is entered only the shape of
    the argument tuple is checked.  Every configuration whose integers fit a
    C [int] and whose strings hold no NUL reaches the engine unchanged --
    negative [nDims] and [nDerived] and empty paths included -- with the two
    callables registered; and when parsing fails, NULL is returned with
    nothing added to the trace, so the engine has not been entered. *)
Theorem run_checks_only_argument_shape
    (self likelihood prior_fn : PyObject) cfg w (args : PyObject) (v v1 : World) :
  representable cfg = true ->
  PyErr_pending w = false ->
  PyArg_ParseTuple args v = Returned None v1 ->
  run_PyPolyChord interp polychord_c_interface self (run_args likelihood prior_fn cfg) w
  = (polychord_c_interface (loglikelihood interp) (prior interp) cfg ;;
     Py_INCREF Py_None ;;
     ret Py_None)
      (with_event (EngineCall cfg)
         (with_python_prior prior_fn (with_python_loglikelihood likelihood w)))
  /\ run_PyPolyChord interp polychord_c_interface self args v = Returned NULL v1
  /\ trace v1 = trace v.
Proof.
  intros Hrep Herr Hfail. split; [|split].
  - apply run_PyPolyChord_parsed. by apply PyArg_ParseTuple_ok.
  - by apply run_PyPolyChord_refused.
  - by destruct (PyArg_ParseTuple_frame _ _ _ _ Hfail).
Qed.

End RunClaims.

Section RunScenarios.

Lemma keeps_engine_one_point (interp : nat -> list PyObject -> CallResult) cfg :
  keeps_statics (engine_one_point (loglikelihood interp) (prior interp) cfg).
Proof.
  unfold engine_one_point.
  apply keeps_bind; [by intros w a w' [= _ <-]|]. intros _.
  apply keeps_bind; [apply keeps_prior|]. intros _.
  apply keeps_bind; [apply keeps_loglikelihood|]. intros _. apply keeps_ret.
Qed.

(** A whole run from a fresh process, the engine sampling one point: the
    run returns [None], and callables 0 and 1 are still registered. *)
Lemma run_never_releases_witness :
  exists w',
    run_PyPolyChord demo_interp engine_one_point Py_None
      (run_args (PyFunction 0) (PyFunction 1) demo_config) fresh_world
    = Returned Py_None w'
    /\ python_loglikelihood w' = PyFunction 0
    /\ python_prior w' = PyFunction 1.
Proof.
  eexists. split; [vm_compute; reflexivity|].
  apply (run_never_releases demo_interp engine_one_point Py_None
           (PyFunction 0) (PyFunction 1)
           (drop 2 (tuple_items (run_args (PyFunction 0) (PyFunction 1) demo_config)))
           fresh_world Py_None);
    [reflexivity | apply keeps_engine_one_point | vm_compute; reflexivity].
Defined.

(** C6 fails as stated: the run above has ended, and the slot of the
    likelihood is not empty. *)
Lemma run_leaves_registry_bound :
  exists w',
    run_PyPolyChord demo_interp engine_one_point Py_None
      (run_args (PyFunction 0) (PyFunction 1) demo_config) fresh_world
    = Returned Py_None w'
    /\ python_loglikelihood w' = PyFunction 0
    /\ python_prior w' = PyFunction 1
    /\ python_loglikelihood fresh_world = NULL.
Proof. eexists. split; [vm_compute; reflexivity|]. repeat split. Qed.

(** A call of [run] with callables 2 and 4 while 0 and 1 are registered. *)
Lemma run_rebinds_without_check_witness :
  exists (parsed : option Config) (w1 : World),
    PyArg_ParseTuple (run_args (PyFunction 2) (PyFunction 4) demo_config) demo_world
    = Returned parsed w1
    /\ python_loglikelihood w1 = PyFunction 2
    /\ python_prior w1 = PyFunction 4
    /\ run_PyPolyChord demo_interp engine_idle Py_None
         (run_args (PyFunction 2) (PyFunction 4) demo_config) demo_world
       = match parsed with
         | Some cfg =>
             (engine_idle (loglikelihood demo_interp) (prior demo_interp) cfg ;;
              Py_INCREF Py_None ;;
              ret Py_None) (with_event (EngineCall cfg) w1)
         | None => Returned NULL w1
         end.
Proof.
  apply (run_rebinds_without_check demo_interp engine_idle Py_None
           (PyFunction 2) (PyFunction 4)); reflexivity.
Defined.

(** C7 fails as stated: in [demo_world] callables 0 and 1 are registered;
    a second call of [run] with callables 2 and 4 is not refused: it returns
    [None], the engine has been entered, and the registry holds 2 and 4. *)
Lemma second_run_overwrites_registry :
  python_loglikelihood demo_world = PyFunction 0
  /\ python_prior demo_world = PyFunction 1
  /\ run_PyPolyChord demo_interp engine_idle Py_None
       (run_args (PyFunction 2) (PyFunction 4) demo_config) demo_world
     = Returned Py_None
         (with_event (EngineCall demo_config)
            (with_python_prior (PyFunction 4)
               (with_python_loglikelihood (PyFunction 2) demo_world))).
Proof. repeat split. Qed.

(** The odd configuration parses and reaches the engine; the call with a
    float for [nDims] does not. *)
Lemma run_checks_only_argument_shape_witness :
  run_PyPolyChord demo_interp engine_idle Py_None
    (run_args (PyFunction 0) (PyFunction 1) odd_config) fresh_world
  = (engine_idle (loglikelihood demo_interp) (prior demo_interp) odd_config ;;
     Py_INCREF Py_None ;;
     ret Py_None)
      (with_event (EngineCall odd_config)
         (with_python_prior (PyFunction 1)
            (with_python_loglikelihood (PyFunction 0) fresh_world)))
  /\ run_PyPolyChord demo_interp engine_idle Py_None float_dims_args fresh_world
     = Returned NULL
         (with_PyErr true
            (with_python_prior (PyFunction 1)
               (with_python_loglikelihood (PyFunction 0) fresh_world)))
  /\ trace
       (with_PyErr true
          (with_python_prior (PyFunction 1)
             (with_python_loglikelihood (PyFunction 0) fresh_world)))
     = trace fresh_world.
Proof.
  apply (run_checks_only_argument_shape demo_interp engine_idle Py_None
           (PyFunction 0) (PyFunction 1) odd_config fresh_world
           float_dims_args fresh_world); reflexivity.
Defined.

(** C8 fails as stated: with [nDims = -1], [nDerived = -2] and both paths
    empty the run is not refused: the engine is entered with these values
    and [None] is returned. *)
Lemma run_negative_sizes_reach_engine :
  nDims odd_config = -1
  /\ nDerived odd_config = -2
  /\ base_dir odd_config = ""%string
  /\ file_root odd_config = ""%string
  /\ run_PyPolyChord demo_interp engine_idle Py_None
       (run_args (PyFunction 0) (PyFunction 1) odd_config) fresh_world
     = Returned Py_None
         (with_event (EngineCall odd_config)
            (with_python_prior (PyFunction 1)
               (with_python_loglikelihood (PyFunction 0) fresh_world))).
Proof. repeat split. Qed.

End RunScenarios.


(** ** Relations the callbacks respect *)

Section Respects.

Variable interp : nat -> list PyObject -> CallResult.

Variable R : World -> World -> Prop.

Hypothesis R_refl : forall w, R w w.
Hypothesis R_trans : forall w1 w2 w3, R w1 w2 -> R w2 w3 -> R w1 w3.
Hypothesis R_PyErr : forall b w, R w (with_PyErr b w).
Hypothesis R_event : forall e w, R w (with_event e w).

Lemma respects_ret {A} (a : A) : respects R (ret a).
Proof. intros w b w' [= _ <-]. apply R_refl. Qed.

Lemma respects_crash {A} (f : Fault) : respects R (@crash A f).
Proof. by intros w b w' [=]. Qed.

Lemma respects_bind {A B} (m : M A) (k : A -> M B) :
  respects R m -> (forall a, respects R (k a)) -> respects R (bind m k).
Proof.
  intros Hm Hk w b w'. unfold bind.
  destruct (m w) as [a w1|f] eqn:Hmw; [|done].
  intros Hkw. eapply R_trans; [by eapply Hm | by eapply Hk].
Qed.

Lemma respects_gets {A} (f : World -> A) : respects R (gets f).
Proof. intros w b w' [= _ <-]. apply R_refl. Qed.

Lemma respects_PyErr_Set : respects R PyErr_Set.
Proof. intros w b w' [= _ <-]. apply R_PyErr. Qed.

Lemma respects_log_event (e : Event) : respects R (log_event e).
Proof. intros w b w' [= _ <-]. apply R_event. Qed.

Lemma respects_load (array : addr) (i : Z) : respects R (load array i).
Proof.
  intros w b w'. unfold load.
  destruct (heap w !! array) as [buf|]; [|done].
  destruct (i <? 0); [done|]. destruct (buf !! Z.to_nat i); [|done].
  intros [= _ <-]. apply R_refl.
Qed.

Lemma respects_int_incr (i : Z) : respects R (int_incr i).
Proof.
  unfold int_incr. destruct (i <? INT_MAX); [apply respects_ret | apply respects_crash].
Qed.

Lemma respects_for_int {S} (body : Z -> S -> M S) :
  (forall i s, respects R (body i s)) ->
  forall n i s, respects R (for_int n i body s).
Proof.
  intros Hbody n. induction n as [|n IH]; intros i s; cbn [for_int].
  - apply respects_ret.
  - apply respects_bind; [apply Hbody|]. intros s'.
    apply respects_bind; [apply respects_int_incr|]. intros i'. apply IH.
Qed.

Lemma respects_fail {A} (a : A) : respects R (PyErr_Set ;; ret a).
Proof.
  apply respects_bind; [apply respects_PyErr_Set | intros; apply respects_ret].
Qed.

Lemma respects_PyList_New (n : Z) : respects R (PyList_New n).
Proof.
  unfold PyList_New. destruct (n <? 0); [apply respects_fail | apply respects_ret].
Qed.

Lemma respects_PyList_Size (op : PyObject) : respects R (PyList_Size op).
Proof.
  destruct op; first [apply respects_crash | apply respects_ret | apply respects_fail].
Qed.

Lemma respects_PyList_SET_ITEM (op : PyObject) (i : Z) (v : PyObject) :
  respects R (PyList_SET_ITEM op i v).
Proof.
  destruct op as [| | | | |items| |]; try apply respects_crash.
  unfold PyList_SET_ITEM. destruct (i <? 0); [apply respects_crash|].
  destruct (items !! Z.to_nat i); [apply respects_ret | apply respects_crash].
Qed.


Lemma respects_PyFloat_AsDouble (op : PyObject) : respects R (PyFloat_AsDouble op).
Proof.
  unfold PyFloat_AsDouble.
  destruct (nb_float op); [apply respects_ret | apply respects_fail].
Qed.

Lemma respects_PyFloat_FromDouble (d : float) : respects R (PyFloat_FromDouble d).
Proof. apply respects_ret. Qed.

Lemma respects_Py_DECREF (op : PyObject) : respects R (Py_DECREF op).
Proof. destruct op; first [apply respects_crash | apply respects_ret]. Qed.

Lemma respects_PyObject_CallFunctionObjArgs (callable : PyObject) (args : list PyObject) :
  respects R (PyObject_CallFunctionObjArgs interp callable args).
Proof.
  destruct callable; try apply respects_fail.
  unfold PyObject_CallFunctionObjArgs.
  apply respects_bind; [apply respects_log_event|]. intros _.
  destruct (returned _); first [apply respects_fail | apply respects_ret].
Qed.

Lemma respects_convert_list_array_to_list (array : addr) (list : PyObject) :
  respects R (convert_list_array_to_list array list).
Proof.
  unfold convert_list_array_to_list.
  apply respects_bind; [apply respects_PyList_Size|]. intros size.
  apply respects_for_int. intros i l.
  apply respects_bind; [apply respects_load|]. intros d.
  apply respects_bind; [apply respects_PyFloat_FromDouble|]. intros item.
  apply respects_PyList_SET_ITEM.
Qed.


(** [loglikelihood] holds no store at all. *)
Lemma respects_loglikelihood (theta : addr) (nDims : Z) (phi : addr) (nDerived : Z) :
  respects R (loglikelihood interp theta nDims phi nDerived).
Proof.
  unfold loglikelihood.
  apply respects_bind; [apply respects_PyList_New|]. intros list_theta.
  apply respects_bind; [apply respects_convert_list_array_to_list|]. intros list_theta'.
  apply respects_bind; [apply respects_PyList_New|]. intros list_phi.
  apply respects_bind; [apply respects_convert_list_array_to_list|]. intros list_phi'.
  apply respects_bind; [apply respects_gets|]. intros callable.
  apply respects_bind; [apply respects_PyObject_CallFunctionObjArgs|]. intros pylogL.
  apply respects_bind; [apply respects_PyFloat_AsDouble|]. intros logL.
  apply respects_bind; [apply respects_Py_DECREF|]. intros _.
  apply respects_bind; [apply respects_Py_DECREF|]. intros _.
  apply respects_bind; [apply respects_Py_DECREF|]. intros _.
  apply respects_ret.
Qed.


End Respects.

(** ** What the callbacks never touch *)

Section Frames.

Variable interp : nat -> list PyObject -> CallResult.

Implicit Types (w : World).

Lemma same_memory_refl w : same_memory w w.
Proof. done. Qed.

Lemma same_memory_trans w1 w2 w3 :
  same_memory w1 w2 -> same_memory w2 w3 -> same_memory w1 w3.
Proof. intros (? & ? & ?) (? & ? & ?). repeat split; congruence. Qed.




(** X3: [loglikelihood] stores nowhere.  From any world and on any
    arguments, when it returns, every native buffer and both statics are
    what they were; what it can change is the error indicator and the
    trace. *)
Theorem loglikelihood_never_writes
    (theta : addr) (nDims : Z) (phi : addr) (nDerived : Z) w (logL : float) w' :
  loglikelihood interp theta nDims phi nDerived w = Returned logL w' ->
  heap w' = heap w
  /\ python_loglikelihood w' = python_loglikelihood w
  /\ python_prior w' = python_prior w.
Proof.
  apply (respects_loglikelihood interp same_memory
           same_memory_refl same_memory_trans); done.
Qed.


End Frames.

Section FrameScenarios.

(** The likelihood of the demo world is called and returns 2.0. *)
Lemma loglikelihood_never_writes_witness :
  loglikelihood demo_interp 2%positive 2 3%positive 1 demo_world
  = Returned 2%float
      (with_event
         (PyCall (PyFunction 0) [PyList [PyFloat 0; PyFloat 0]; PyList [PyFloat 0]])
         demo_world)
  /\ heap
       (with_event
          (PyCall (PyFunction 0) [PyList [PyFloat 0; PyFloat 0]; PyList [PyFloat 0]])
          demo_world)
     = heap demo_world
  /\ python_loglikelihood demo_world = PyFunction 0
  /\ python_prior demo_world = PyFunction 1.
Proof.
  split; [reflexivity|].
  apply (loglikelihood_never_writes demo_interp 2%positive 2 3%positive 1
           demo_world 2%float
           (with_event
              (PyCall (PyFunction 0) [PyList [PyFloat 0; PyFloat 0]; PyList [PyFloat 0]])
              demo_world)); reflexivity.
Defined.


End FrameScenarios.

(** ** Edges of the converter and of the callbacks *)

Section Edges.

Variable interp : nat -> list PyObject -> CallResult.

Implicit Types (w : World) (buf cbuf tbuf pbuf : list float).

Lemma load_out_of_bounds w (array : addr) buf (i : nat) :
  heap w !! array = Some buf -> (length buf <= i)%nat ->
  load array (Z.of_nat i) w = Crashed OutOfBounds.
Proof.
  intros Hb Hi. unfold load. rewrite Hb.
  destruct (Z.ltb_spec (Z.of_nat i) 0) as [?|_]; [lia|].
  by rewrite Nat2Z.id, (lookup_ge_None_2 buf i Hi).
Qed.

(** The array-to-list loop, asked for more items than the buffer has,
    reads past the buffer's end. *)
Lemma array_to_list_loop_overrun (array : addr) buf w :
  heap w !! array = Some buf ->
  Z.of_nat (length buf) <= INT_MAX ->
  forall (k : nat) (filled : list PyObject),
    (length filled <= length buf)%nat ->
    (length buf < length filled + k)%nat ->
    for_int k (Z.of_nat (length filled))
      (fun i list =>
         d <- load array i ;;
         item <- PyFloat_FromDouble d ;;
         PyList_SET_ITEM list i item)
      (PyList (filled ++ replicate k NULL)) w
    = Crashed OutOfBounds.
Proof.
  intros Hbuf Hmax k. induction k as [|k IH]; intros filled Hle Hlt; [lia|].
  cbn [for_int replicate]. unfold bind at 1 2.
  destruct (decide (length filled = length buf)) as [Heq|Hne].
  - by rewrite (load_out_of_bounds _ _ buf) by (done || lia).
  - destruct (lookup_lt_is_Some_2 buf (length filled)) as [v Hv]; [lia|].
    rewrite (load_ok _ _ _ _ _ Hbuf Hv). unfold bind at 1, PyFloat_FromDouble, ret at 1.
    rewrite (PyList_SET_ITEM_ok _ _ _ NULL) by (by apply list_lookup_middle).
    unfold bind at 1. rewrite int_incr_ok by lia.
    rewrite insert_app_r_alt, Nat.sub_diag by lia. cbn [insert list_insert].
    rewrite (cons_middle (PyFloat v)), app_assoc.
    replace (Z.of_nat (length filled) + 1) with (Z.of_nat (length (filled ++ [PyFloat v])))
      by (rewrite length_app; simpl; lia).
    apply IH; rewrite length_app; simpl; lia.
Qed.

(** X1: making a list of [n] items from a buffer has three outcomes, told
    apart by [n] alone.  A negative [n] makes [PyList_New] return NULL, which
    [convert_list] dereferences; an [n] within the buffer's extent gives the
    list of its first [n] values and changes nothing; a larger [n] reads past
    the end of the buffer. *)
Theorem toContainer_bounds (array : addr) buf (n : Z) w :
  heap w !! array = Some buf ->
  Z.of_nat (length buf) <= INT_MAX ->
  toContainer array n w
  = if n <? 0 then Crashed NullDereference
    else if n <=? Z.of_nat (length buf)
         then Returned (PyList (PyFloat <$> take (Z.to_nat n) buf)) w
         else Crashed OutOfBounds.
Proof.
  intros Hbuf Hmax. unfold toContainer, bind at 1.
  destruct (Z.ltb_spec n 0) as [Hneg|Hpos].
  - unfold PyList_New. by destruct (Z.ltb_spec n 0) as [_|?]; [|lia].
  - rewrite <- (Z2Nat.id n Hpos) at 1. rewrite PyList_New_ok.
    destruct (Z.leb_spec n (Z.of_nat (length buf))) as [Hle|Hgt].
    + apply convert_list_array_to_list_ok; done || lia.
    + unfold convert_list_array_to_list, bind. simpl.
      rewrite length_replicate, Nat2Z.id.
      apply (array_to_list_loop_overrun array buf w Hbuf Hmax (Z.to_nat n) []);
        simpl; lia.
Qed.

(** X11: handed an object that is not a list (and not NULL), neither
    overload of [convert_list] reads or writes anything: [PyList_Size] fails,
    the loop body never runs, and the function returns normally with the
    error indicator raised -- whatever [array] points to. *)
Theorem convert_list_skips_non_list (op : PyObject) (array : addr) w :
  op <> NULL ->
  not_a_list op = true ->
  convert_list_list_to_array op array w = Returned tt (with_PyErr true w)
  /\ convert_list_array_to_list array op w = Returned op (with_PyErr true w).
Proof. intros Hnull Hlist. by destruct op. Qed.

(** X13: a negative [nDims] crashes either callback before the registered
    callable is reached: [PyList_New] returns NULL and the first
    [convert_list] dereferences it. *)
Theorem callbacks_crash_on_negative_nDims
    (cube theta phi : addr) (nDims nDerived : Z) w :
  nDims < 0 ->
  loglikelihood interp theta nDims phi nDerived w = Crashed NullDereference
  /\ prior interp cube theta nDims w = Crashed NullDereference.
Proof.
  intros Hneg. unfold loglikelihood, prior, bind, PyList_New.
  by destruct (Z.ltb_spec nDims 0) as [_|?]; [|lia].
Qed.

(** X2: with no function object registered -- the static still NULL, or
    holding an object that cannot be called -- [loglikelihood] on buffers of
    the declared sizes ends in a NULL dereference: the call yields NULL,
    which is converted to -1.0 and then handed to [Py_DECREF]. *)
Theorem loglikelihood_unbound_crashes (theta phi : addr) tbuf pbuf w :
  heap w !! theta = Some tbuf ->
  heap w !! phi = Some pbuf ->
  Z.of_nat (length tbuf) <= INT_MAX ->
  Z.of_nat (length pbuf) <= INT_MAX ->
  not_callable (python_loglikelihood w) = true ->
  loglikelihood interp theta (Z.of_nat (length tbuf)) phi (Z.of_nat (length pbuf)) w
  = Crashed NullDereference.
Proof.
  intros Ht Hp Hmt Hmp Hcall. unfold loglikelihood.
  unfold bind at 1. rewrite PyList_New_ok.
  unfold bind at 1. rewrite (convert_list_array_to_list_ok theta tbuf) by done.
  unfold bind at 1. rewrite PyList_New_ok.
  unfold bind at 1. rewrite (convert_list_array_to_list_ok phi pbuf) by done.
  rewrite !take_ge by done.
  unfold bind at 1, gets.
  by destruct (python_loglikelihood w).
Qed.

(** X5: [prior] on a cube of the declared size ends in a NULL dereference
    whenever the call yields NULL -- no function object is registered, or the
    registered one raises: [convert_list] asks NULL for its size. *)
Theorem prior_null_result_crashes (cube theta : addr) cbuf w :
  heap w !! cube = Some cbuf ->
  Z.of_nat (length cbuf) <= INT_MAX ->
  (forall code : nat,
     python_prior w = PyFunction code ->
     returned (interp code [PyList (PyFloat <$> cbuf)]) = NULL) ->
  prior interp cube theta (Z.of_nat (length cbuf)) w = Crashed NullDereference.
Proof.
  intros Hc Hmax Hnull. unfold prior.
  unfold bind at 1. rewrite PyList_New_ok.
  unfold bind at 1. rewrite (convert_list_array_to_list_ok cube cbuf) by done.
  rewrite take_ge by done.
  unfold bind at 1, gets.
  destruct (python_prior w) as [| | | | | | |code] eqn:Hprior; try done.
  unfold bind at 1. rewrite PyObject_CallFunctionObjArgs_eq by done.
  by rewrite (Hnull code eq_refl).
Qed.

(** X6: when the registered prior returns an object that is not a list (a
    tuple, a float, [None], ...), [prior] on a cube of the declared size
    returns normally without having written anything: the buffers are as they
    were, the call is in the trace, and the error indicator is raised. *)
Theorem prior_ignores_non_list (cube theta : addr) cbuf (code : nat) w :
  heap w !! cube = Some cbuf ->
  Z.of_nat (length cbuf) <= INT_MAX ->
  python_prior w = PyFunction code ->
  returned (interp code [PyList (PyFloat <$> cbuf)]) <> NULL ->
  not_a_list (returned (interp code [PyList (PyFloat <$> cbuf)])) = true ->
  prior interp cube theta (Z.of_nat (length cbuf)) w
  = Returned tt
      (with_PyErr true
         (with_event (PyCall (PyFunction code) [PyList (PyFloat <$> cbuf)]) w)).
Proof.
  intros Hc Hmax Hcode Hnull Hlist. unfold prior.
  unfold bind at 1. rewrite PyList_New_ok.
  unfold bind at 1. rewrite (convert_list_array_to_list_ok cube cbuf) by done.
  rewrite take_ge by done.
  unfold bind at 1, gets. rewrite Hcode.
  unfold bind at 1. rewrite PyObject_CallFunctionObjArgs_eq by done.
  by destruct (returned _).
Qed.

End Edges.

Section EdgeScenarios.

(** Two items asked of the demo [cube], which has two. *)
Lemma toContainer_bounds_witness :
  toContainer 1%positive 2 demo_world
  = Returned (PyList [PyFloat 0.5; PyFloat 0.5]) demo_world.
Proof.
  apply (toContainer_bounds 1%positive [0.5; 0.5]%float 2 demo_world);
    [reflexivity | vm_compute; discriminate].
Defined.

(** A tuple handed to both overloads. *)
Lemma convert_list_skips_non_list_witness :
  convert_list_list_to_array (PyTuple [PyFloat 1]) 2%positive demo_world
  = Returned tt (with_PyErr true demo_world)
  /\ convert_list_array_to_list 2%positive (PyTuple [PyFloat 1]) demo_world
     = Returned (PyTuple [PyFloat 1]) (with_PyErr true demo_world).
Proof.
  apply (convert_list_skips_non_list (PyTuple [PyFloat 1]) 2%positive demo_world);
    [discriminate | reflexivity].
Defined.

(** The sizes of [odd_config]. *)
Lemma callbacks_crash_on_negative_nDims_witness :
  loglikelihood demo_interp 2%positive (-1) 3%positive (-2) demo_world
  = Crashed NullDereference
  /\ prior demo_interp 1%positive 2%positive (-1) demo_world = Crashed NullDereference.
Proof.
  apply (callbacks_crash_on_negative_nDims demo_interp 1%positive 2%positive 3%positive
           (-1) (-2) demo_world).
  reflexivity.
Defined.

(** The demo buffers in a process where [run] has never been called. *)
Lemma loglikelihood_unbound_crashes_witness :
  loglikelihood demo_interp 2%positive 2 3%positive 1 (with_heap demo_heap fresh_world)
  = Crashed NullDereference.
Proof.
  apply (loglikelihood_unbound_crashes demo_interp 2%positive 3%positive
           [0; 0]%float [0]%float (with_heap demo_heap fresh_world));
    [reflexivity | reflexivity | vm_compute; discriminate | vm_compute; discriminate
    | reflexivity].
Defined.

(** Callable 9 raises. *)
Lemma prior_null_result_crashes_witness :
  prior demo_interp 1%positive 2%positive 2 (with_python_prior (PyFunction 9) demo_world)
  = Crashed NullDereference.
Proof.
  apply (prior_null_result_crashes demo_interp 1%positive 2%positive [0.5; 0.5]%float
           (with_python_prior (PyFunction 9) demo_world));
    [reflexivity | vm_compute; discriminate | by intros code [= <-]].
Defined.

(** Prior 5 returns a tuple. *)
Lemma prior_ignores_non_list_witness :
  prior demo_interp 1%positive 2%positive 2 (with_python_prior (PyFunction 5) demo_world)
  = Returned tt
      (with_PyErr true
         (with_event (PyCall (PyFunction 5) [PyList [PyFloat 0.5; PyFloat 0.5]])
            (with_python_prior (PyFunction 5) demo_world))).
Proof.
  apply (prior_ignores_non_list demo_interp 1%positive 2%positive [0.5; 0.5]%float 5
           (with_python_prior (PyFunction 5) demo_world));
    [reflexivity | vm_compute; discriminate | reflexivity | discriminate | reflexivity].
Defined.

End EdgeScenarios.

(** ** The callbacks in sequence *)

Section Sequences.

Variable interp : nat -> list PyObject -> CallResult.

Implicit Types (w : World) (cbuf tbuf pbuf vals : list float).

(** X7: one sampled point.  [prior] maps [cube] into [theta], then
    [loglikelihood] is evaluated on [theta]: with distinct [theta] and [phi]
    buffers and a prior that returns [nDims] floats, the likelihood callable
    is called on exactly the floats the prior returned (and on the list made
    from [phi]); [theta] holds them afterwards, and the value returned to the
    engine is the float value of the likelihood's result. *)
Theorem prior_then_loglikelihood
    (cube theta phi : addr) cbuf tbuf pbuf vals (cp cl : nat) w :
  theta <> phi ->
  heap w !! cube = Some cbuf ->
  heap w !! theta = Some tbuf ->
  heap w !! phi = Some pbuf ->
  Z.of_nat (length cbuf) <= INT_MAX ->
  Z.of_nat (length pbuf) <= INT_MAX ->
  length tbuf = length cbuf ->
  python_prior w = PyFunction cp ->
  python_loglikelihood w = PyFunction cl ->
  returned (interp cp [PyList (PyFloat <$> cbuf)]) = PyList (PyFloat <$> vals) ->
  length vals = length cbuf ->
  returned (interp cl [PyList (PyFloat <$> vals); PyList (PyFloat <$> pbuf)]) <> NULL ->
  (prior interp cube theta (Z.of_nat (length cbuf)) ;;
   loglikelihood interp theta (Z.of_nat (length cbuf)) phi (Z.of_nat (length pbuf))) w
  = Returned
      (as_double
         (returned (interp cl [PyList (PyFloat <$> vals); PyList (PyFloat <$> pbuf)])))
      (with_PyErr
         (PyErr_pending w
          || negb (has_float
                     (returned
                        (interp cl [PyList (PyFloat <$> vals); PyList (PyFloat <$> pbuf)]))))
         (with_event
            (PyCall (PyFunction cl) [PyList (PyFloat <$> vals); PyList (PyFloat <$> pbuf)])
            (with_heap (<[theta := vals]> (heap w))
               (with_event (PyCall (PyFunction cp) [PyList (PyFloat <$> cbuf)]) w)))).
Proof.
  intros Hne Hc Ht Hp Hmc Hmp Hlt Hcp Hcl Hprior Hlen Hres.
  unfold bind at 1.
  rewrite (prior_eq interp cube theta cbuf tbuf (PyFloat <$> vals) cp) by (done || lia).
  rewrite decide_True by (rewrite length_fmap; lia).
  rewrite has_float_PyFloat, as_double_PyFloat, length_fmap.
  rewrite drop_ge, app_nil_r by lia. cbn [negb]. rewrite orb_false_r.
  rewrite <- Hlen.
  rewrite (loglikelihood_eq interp theta phi vals pbuf cl);
    [| by (simpl; rewrite lookup_insert_eq)
     | by (simpl; rewrite lookup_insert_ne)
     | lia | done | done].
  cbv zeta. destruct (returned (interp cl _)); [done|..]; by destruct w.
Qed.


End Sequences.

Section SequenceScenarios.

(** The demo point: the cube (0.5, 0.5) becomes theta = (5, 5), on which
    likelihood 0 returns 2.0. *)
Lemma prior_then_loglikelihood_witness :
  (prior demo_interp 1%positive 2%positive 2 ;;
   loglikelihood demo_interp 2%positive 2 3%positive 1) demo_world
  = Returned 2%float
      (with_event
         (PyCall (PyFunction 0) [PyList [PyFloat 5; PyFloat 5]; PyList [PyFloat 0]])
         (with_heap (<[2%positive := [5; 5]%float]> demo_heap)
            (with_event (PyCall (PyFunction 1) [PyList [PyFloat 0.5; PyFloat 0.5]])
               demo_world))).
Proof.
  apply (prior_then_loglikelihood demo_interp 1%positive 2%positive 3%positive
           [0.5; 0.5]%float [0; 0]%float [0]%float [5; 5]%float 1 0 demo_world);
    [discriminate | reflexivity | reflexivity | reflexivity
    | vm_compute; discriminate | vm_compute; discriminate | reflexivity
    | reflexivity | reflexivity | reflexivity | reflexivity | discriminate].
Defined.


End SequenceScenarios.

(** ** Calls of [run] that are refused *)

Section Refusals.

Variable interp : nat -> list PyObject -> CallResult.

Variable polychord_c_interface :
  (addr -> Z -> addr -> Z -> M float) -> (addr -> addr -> Z -> M unit) ->
  Config -> M unit.

Implicit Types (w : World) (cfg : Config).

Lemma fails_loudly_ret {A} (a : A) : fails_loudly (ret (Some a)).
Proof. by intros w w' [=]. Qed.

Lemma fails_loudly_fail {A} : fails_loudly (PyErr_Set ;; ret (@None A)).
Proof. by intros w w' [= <-]. Qed.

Lemma fails_loudly_bind_opt {A B} (m : M (option A)) (k : A -> M (option B)) :
  fails_loudly m -> (forall a, fails_loudly (k a)) -> fails_loudly (bind_opt m k).
Proof.
  intros Hm Hk w w'. unfold bind_opt, bind.
  destruct (m w) as [[a|] w1|f] eqn:Hmw; [apply Hk | | done].
  intros [= <-]. by apply (Hm w).
Qed.

Lemma fails_loudly_convert_i (arg : PyObject) : fails_loudly (convert_i arg).
Proof.
  destruct arg as [| |z| | | | |]; try apply fails_loudly_fail.
  intros w w'. unfold convert_i.
  destruct (fits_long z); [|apply fails_loudly_fail].
  unfold bind, PyErr_Occurred, gets.
  destruct (z =? -1); simpl.
  - destruct (PyErr_pending w) eqn:He; [by intros [= <-]|].
    destruct (fits_int z); [done | by intros [= <-]].
  - destruct (fits_int z); [done | by intros [= <-]].
Qed.

Lemma fails_loudly_convert_d (arg : PyObject) : fails_loudly (convert_d arg).
Proof.
  intros w w'. unfold convert_d, bind, PyErr_Occurred, gets.
  rewrite PyFloat_AsDouble_eq. simpl.
  destruct (PyErr_pending w || negb (has_float arg)) eqn:He; [|done].
  by intros [= <-].
Qed.

Lemma fails_loudly_convert_s (arg : PyObject) : fails_loudly (convert_s arg).
Proof.
  destruct arg as [| | | |s| | |]; try apply fails_loudly_fail.
  unfold convert_s. destruct (has_nul s); [apply fails_loudly_fail | apply fails_loudly_ret].
Qed.

(** [PyArg_ParseTuple] reports a failure only with the error indicator
    raised. *)
Lemma fails_loudly_PyArg_ParseTuple (args : PyObject) : fails_loudly (PyArg_ParseTuple args).
Proof.
  destruct args as [| | | | | |items|]; try apply fails_loudly_fail; [by intros w w' [=]|].
  do 23 (destruct items as [|? items]; [apply fails_loudly_fail|]).
  destruct items; [|apply fails_loudly_fail].
  intros w w'. unfold PyArg_ParseTuple. unfold bind at 1 2, modify.
  match goal with
  | |- ?m ?w1 = _ -> _ => assert (fails_loudly m) as Hm
  end.
  { repeat (apply fails_loudly_bind_opt;
            [first [apply fails_loudly_convert_i | apply fails_loudly_convert_d
                   | apply fails_loudly_convert_s] | intros ?]).
    apply fails_loudly_ret. }
  apply Hm.
Qed.

Lemma bind_opt_convert_i {B} (z : Z) (k : Z -> M (option B)) w :
  PyErr_pending w = false ->
  bind_opt (convert_i (PyInt z)) k w
  = if fits_int z then k z w else Returned None (with_PyErr true w).
Proof.
  intros He. unfold bind_opt, bind at 1.
  destruct (fits_int z) eqn:Hz; [by rewrite convert_i_ok|].
  unfold convert_i, bind, PyErr_Occurred, gets.
  destruct (fits_long z); [|done]. by rewrite He, andb_false_r, Hz.
Qed.

Lemma bind_opt_convert_d {B} (d : float) (k : float -> M (option B)) w :
  PyErr_pending w = false ->
  bind_opt (convert_d (PyFloat d)) k w = k d w.
Proof. intros He. unfold bind_opt, bind at 1. by rewrite convert_d_ok. Qed.

Lemma bind_opt_convert_s {B} (s : string) (k : string -> M (option B)) w :
  bind_opt (convert_s (PyString s)) k w
  = if has_nul s then Returned None (with_PyErr true w) else k s w.
Proof. unfold bind_opt, bind at 1, convert_s. by destruct (has_nul s). Qed.

(** What parsing makes of a configuration passed from Python with no error
    pending: the configuration itself when it is representable, a failure
    otherwise; the two statics are written in both cases. *)
Lemma PyArg_ParseTuple_run_args (likelihood prior_fn : PyObject) cfg w :
  PyErr_pending w = false ->
  PyArg_ParseTuple (run_args likelihood prior_fn cfg) w
  = if representable cfg
    then Returned (Some cfg)
           (with_python_prior prior_fn (with_python_loglikelihood likelihood w))
    else Returned None
           (with_PyErr true
              (with_python_prior prior_fn (with_python_loglikelihood likelihood w))).
Proof.
  intros Herr. destruct cfg. unfold representable, int_fields.
  unfold run_args, PyArg_ParseTuple.
  cbn [forallb base_dir file_root nDims nDerived nlive num_repeats do_clustering
       feedback max_ndead posteriors equals cluster_posteriors write_resume
       write_paramnames read_resume write_stats write_live write_dead
       update_files precision_criterion boost_posterior].
  unfold bind at 1 2, modify.
  repeat first
    [ rewrite bind_opt_convert_d by exact Herr
    | rewrite bind_opt_convert_i by exact Herr;
      match goal with
      | |- context [fits_int ?z] =>
          destruct (fits_int z) eqn:?; [|by rewrite ?andb_false_r]
      end
    | rewrite bind_opt_convert_s;
      match goal with
      | |- context [has_nul ?s] =>
          destruct (has_nul s) eqn:?; [by rewrite ?andb_false_r|]
      end ].
  done.
Qed.

(** X8: a call of [run] with other than 23 arguments is refused before
    anything is stored: NULL is returned, and the world differs from the one
    before the call by the raised error indicator only -- the registry keeps
    what it held and the engine is not entered. *)
Theorem run_wrong_arity (self args : PyObject) w :
  args <> NULL ->
  (forall items : list PyObject, args = PyTuple items -> length items <> 23%nat) ->
  run_PyPolyChord interp polychord_c_interface self args w
  = Returned NULL (with_PyErr true w).
Proof.
  intros Hnull Harity.
  destruct args as [| | | | | |items|]; try done.
  specialize (Harity items eq_refl).
  do 23 (destruct items as [|? items]; [done|]).
  by destruct items.
Qed.

(** X9: [run] keeps to the interpreter's convention for a NULL result:
    whenever it returns NULL the error indicator is raised, whatever the
    arguments, the world and the engine. *)
Theorem run_null_has_error (self args : PyObject) w w' :
  run_PyPolyChord interp polychord_c_interface self args w = Returned NULL w' ->
  PyErr_pending w' = true.
Proof.
  unfold run_PyPolyChord, bind at 1.
  destruct (PyArg_ParseTuple args w) as [[cfg|] w1|f] eqn:Hparse; [| |done].
  - unfold bind, log_event, modify.
    destruct (polychord_c_interface _ _ cfg _); [|done]. by intros [=].
  - intros [= <-]. by apply (fails_loudly_PyArg_ParseTuple args w).
Qed.

(** X10: a configuration that is not representable -- an integer outside
    the range of a C [int], or a NUL inside a path -- is refused: [run]
    returns NULL with the error indicator raised and the engine is not
    entered; the two callables of the refused call are in the registry all
    the same. *)
Theorem run_refuses_unrepresentable (self likelihood prior_fn : PyObject) cfg w :
  PyErr_pending w = false ->
  representable cfg = false ->
  run_PyPolyChord interp polychord_c_interface self (run_args likelihood prior_fn cfg) w
  = Returned NULL
      (with_PyErr true
         (with_python_prior prior_fn (with_python_loglikelihood likelihood w))).
Proof.
  intros Herr Hrep. apply run_PyPolyChord_refused.
  by rewrite PyArg_ParseTuple_run_args, Hrep.
Qed.

End Refusals.

Section RefusalScenarios.

(** Two arguments instead of 23, while callables 0 and 1 are registered. *)
Lemma run_wrong_arity_witness :
  run_PyPolyChord demo_interp engine_idle Py_None short_args demo_world
  = Returned NULL (with_PyErr true demo_world).
Proof.
  apply (run_wrong_arity demo_interp engine_idle Py_None short_args demo_world);
    [discriminate | intros items [= <-]; discriminate].
Defined.

(** The call with a float for [nDims]. *)
Lemma run_null_has_error_witness :
  run_PyPolyChord demo_interp engine_idle Py_None float_dims_args fresh_world
  = Returned NULL
      (with_PyErr true
         (with_python_prior (PyFunction 1)
            (with_python_loglikelihood (PyFunction 0) fresh_world)))
  /\ PyErr_pending
       (with_PyErr true
          (with_python_prior (PyFunction 1)
             (with_python_loglikelihood (PyFunction 0) fresh_world)))
     = true.
Proof.
  split; [reflexivity|].
  apply (run_null_has_error demo_interp engine_idle Py_None float_dims_args fresh_world).
  reflexivity.
Defined.

(** 2147483648 live points do not fit a C [int]. *)
Lemma run_refuses_unrepresentable_witness :
  run_PyPolyChord demo_interp engine_idle Py_None
    (run_args (PyFunction 0) (PyFunction 1) wide_config) fresh_world
  = Returned NULL
      (with_PyErr true
         (with_python_prior (PyFunction 1)
            (with_python_loglikelihood (PyFunction 0) fresh_world))).
Proof.
  apply (run_refuses_unrepresentable demo_interp engine_idle Py_None
           (PyFunction 0) (PyFunction 1) wide_config fresh_world); reflexivity.
Defined.

End RefusalScenarios.
